(** * sessionup: the session manager (manager.go)

    A shallow embedding of [Manager] and of its operations [Init], [Auth],
    [Revoke], [RevokeOther], [RevokeAll] and [FetchAll], together with the
    properties of the session lifecycle that the specification states.

    Effects are explicit.  Every operation runs in a small state monad over
    a [World]: the state of the store behind the [Store] interface, the
    cookies handed to [http.SetCookie] on the response writer, the wall
    clock, the entropy of the ID generator, and a log of the calls the
    manager makes to its collaborators (store, next handler, rejection
    handler). *)

From Stdlib Require Import String List ZArith Bool Lia.
Import ListNotations.
Open Scope string_scope.
Open Scope list_scope.
Open Scope Z_scope.

(** ** Go values *)

(** A Go [error] value; the nil error is [None] in [option error]. *)
Inductive error : Type :=
| Err (msg : string).

(** [time.Time] as nanoseconds relative to the zero instant [time.Time{}]
    (January 1, year 1, UTC); [time.Duration] as nanoseconds. *)
Definition Time := Z.
Definition Duration := Z.

Definition zeroTime : Time := 0.
Definition Nanosecond : Duration := 1.
Definition Second : Duration := 1000000000 * Nanosecond.
Definition Minute : Duration := 60 * Second.
Definition Hour : Duration := 60 * Minute.

(** [t.After(u)] and [t.Add(d)]. *)
Definition After (t u : Time) : bool := u <? t.
Definition Add (t : Time) (d : Duration) : Time := t + d.

(** [time.Duration] is an int64 count of nanoseconds. *)
Definition minInt64 : Z := -9223372036854775808.
Definition maxInt64 : Z := 9223372036854775807.
Definition isDuration (d : Z) : Prop := minInt64 <= d <= maxInt64.

(** The largest duration takes the clock back some 292 years; a wall clock
    later than that after the zero instant (year 1) cannot be taken before
    it by adding a duration. *)
Definition clockAfterEpoch (now : Time) : Prop := zeroTime < Add now minInt64.

(** [http.SameSite]. *)
Inductive http_SameSite : Type :=
| SameSiteDefaultMode
| SameSiteLaxMode
| SameSiteStrictMode
| SameSiteNoneMode.

(** [http.Cookie], with the fields the manager sets. *)
Record Cookie : Type := mkCookie {
  Name : string;
  Value : string;
  CPath : string;
  CDomain : string;
  Expires : Time;
  CSecure : bool;
  CHttpOnly : bool;
  CSameSite : http_SameSite
}.

(** ** Sessions and contexts *)

Record Session : Type := mkSession {
  Current : bool;
  CreatedAt : Time;
  ExpiresAt : Time;
  ID : string;
  UserKey : string;
  IP : string;
  Agent : string
}.

(** The zero value [Session{}]. *)
Definition zeroSession : Session :=
  mkSession false zeroTime zeroTime "" "" "" "".

Definition setCurrent (s : Session) (b : bool) : Session :=
  mkSession b (CreatedAt s) (ExpiresAt s) (ID s) (UserKey s) (IP s) (Agent s).

(** A [context.Context], as far as the manager looks into it: the session
    bound under the package's private key, if any. *)
Record Context : Type := mkContext {
  ctx_session : option Session
}.

Definition background : Context := mkContext None.

(** Modelled from the spec: [newContext] is declared outside manager.go.
    Section 4.5: Bind(context, Session) attaches the Session as an opaque
    context value. *)
Definition newContext (ctx : Context) (s : Session) : Context :=
  mkContext (Some s).

(** Modelled from the spec: [FromContext] is declared outside manager.go.
    Section 4.5: Lookup(context) retrieves the Session and whether one was
    found; when none is bound the Go zero value [Session{}] comes back. *)
Definition FromContext (ctx : Context) : Session * bool :=
  match ctx_session ctx with
  | Some s => (s, true)
  | None => (zeroSession, false)
  end.

(** ** Requests *)

(** [http.Request]: its cookies (name, value) in header order, its context,
    and the two pieces of metadata a session may capture. *)
Record Request : Type := mkRequest {
  req_cookies : list (string * string);
  req_ctx : Context;
  req_ip : string;
  req_agent : string
}.

Definition ErrNoCookie : error := Err "http: named cookie not present".

(** [r.Cookie(name)]: the first cookie of that name, or [ErrNoCookie]; an
    empty name never matches. *)
Fixpoint findCookie (name : string) (cs : list (string * string))
  : option string :=
  match cs with
  | [] => None
  | (n, v) :: rest => if String.eqb n name then Some v else findCookie name rest
  end.

Definition Request_Cookie (r : Request) (name : string) : string + error :=
  if String.eqb name "" then inr ErrNoCookie
  else match findCookie name (req_cookies r) with
       | Some v => inl v
       | None => inr ErrNoCookie
       end.

(** [r.WithContext(ctx)]. *)
Definition WithContext (r : Request) (ctx : Context) : Request :=
  mkRequest (req_cookies r) ctx (req_ip r) (req_agent r).

(** ** The store interface *)

(** A Go slice of sessions: [None] is the nil slice, [Some l] a non-nil
    slice holding [l] (so [Some []] is an empty, non-nil slice). *)
Definition Sessions := option (list Session).

(** The [Store] interface over a store state [St].  Every method takes the
    state and returns the state it leaves behind. *)
Record Store (St : Type) : Type := mkStore {
  Create : St -> Context -> Session -> option error * St;
  FetchByID : St -> Context -> string -> (Session * bool * option error) * St;
  DeleteByID : St -> Context -> string -> option error * St;
  FetchByUserKey : St -> Context -> string -> (Sessions * option error) * St;
  DeleteByUserKey : St -> Context -> string -> list string -> option error * St
}.

Arguments Create {St}.
Arguments FetchByID {St}.
Arguments DeleteByID {St}.
Arguments FetchByUserKey {St}.
Arguments DeleteByUserKey {St}.

(** ** The world an operation runs in *)

(** The calls the manager makes to its collaborators, in program order. *)
Inductive Event : Type :=
| CallCreate (ctx : Context) (s : Session)
| CallFetchByID (ctx : Context) (id : string)
| CallDeleteByID (ctx : Context) (id : string)
| CallFetchByUserKey (ctx : Context) (key : string)
| CallDeleteByUserKey (ctx : Context) (key : string) (excludeIDs : list string)
| CallNext (r : Request)
| CallReject (e : error) (r : Request).

Definition isStoreCall (e : Event) : bool :=
  match e with
  | CallNext _ | CallReject _ _ => false
  | _ => true
  end.

Definition isNext (e : Event) : bool :=
  match e with CallNext _ => true | _ => false end.

Definition isReject (e : Event) : bool :=
  match e with CallReject _ _ => true | _ => false end.

Definition count (p : Event -> bool) (l : list Event) : nat :=
  length (filter p l).

Section World.

Variable St : Type.

(** [w_cookies] are the cookies handed to [http.SetCookie] on the response
    writer of the current request, oldest first; their serialisation into
    [Set-Cookie] headers is net/http's. *)
Record World : Type := mkWorld {
  w_store : St;
  w_cookies : list Cookie;
  w_now : Time;
  w_entropy : N;
  w_log : list Event
}.

(** An [http.Handler] outside the manager: it sees the request and may use
    the store and the response writer; the manager's call log is not its
    to write. *)
Definition Handler : Type := Request -> St * list Cookie -> St * list Cookie.

(** *** A state monad over the world *)

Definition M (A : Type) : Type := World -> A * World.

Definition ret {A : Type} (a : A) : M A := fun w => (a, w).

Definition bind {A B : Type} (c : M A) (k : A -> M B) : M B :=
  fun w => let (a, w') := c w in k a w'.

Definition emit (e : Event) : M unit :=
  fun w => (tt, mkWorld (w_store w) (w_cookies w) (w_now w) (w_entropy w)
                        (w_log w ++ [e])).

(** Runs one store method on the store's state. *)
Definition onStore {A : Type} (f : St -> A * St) : M A :=
  fun w => let (a, st') := f (w_store w) in
           (a, mkWorld st' (w_cookies w) (w_now w) (w_entropy w) (w_log w)).

(** [time.Now()]. *)
Definition time_Now : M Time := fun w => (w_now w, w).

(** [http.SetCookie(w, c)]. *)
Definition http_SetCookie (c : Cookie) : M unit :=
  fun w => (tt, mkWorld (w_store w) (w_cookies w ++ [c]) (w_now w)
                        (w_entropy w) (w_log w)).

(** [h.ServeHTTP(w, r)] for a handler outside the manager. *)
Definition ServeHTTP (h : Handler) (r : Request) : M unit :=
  fun w => let (st', cs') := h r (w_store w, w_cookies w) in
           (tt, mkWorld st' cs' (w_now w) (w_entropy w) (w_log w)).

End World.

Arguments mkWorld {St}.
Arguments w_store {St}.
Arguments w_cookies {St}.
Arguments w_now {St}.
Arguments w_entropy {St}.
Arguments w_log {St}.
Arguments ret {St A}.
Arguments bind {St A B}.
Arguments emit {St}.
Arguments onStore {St A}.
Arguments time_Now {St}.
Arguments http_SetCookie {St}.
Arguments ServeHTTP {St}.

Notation "x <- c ;; k" := (bind c (fun x => k))
  (at level 61, c at next level, right associativity).
Notation "c ;;; k" := (bind c (fun _ => k))
  (at level 61, right associativity).

(** ** The manager *)

Record cookieCfg : Type := mkCookieCfg {
  name : string;
  domain : string;
  path : string;
  secure : bool;
  httpOnly : bool;
  sameSite : http_SameSite
}.

(** [genID] draws from the world's entropy; [reject] builds the handler
    that answers a request that failed authentication. *)
Record Manager (St : Type) : Type := mkManager {
  store : Store St;
  cookie : cookieCfg;
  expiresIn : Duration;
  withIP : bool;
  withAgent : bool;
  genID : N -> string * N;
  reject : error -> Handler St
}.

Arguments mkManager {St}.
Arguments store {St}.
Arguments cookie {St}.
Arguments expiresIn {St}.
Arguments withIP {St}.
Arguments withAgent {St}.
Arguments genID {St}.
Arguments reject {St}.

Section Operations.

Context {St : Type}.
Variable m : Manager St.

(** *** Calls to the collaborators, each one logged *)

Definition store_Create (ctx : Context) (s : Session) : M St (option error) :=
  emit (CallCreate ctx s) ;;;
  onStore (fun st => Create (store m) st ctx s).

Definition store_FetchByID (ctx : Context) (id : string)
  : M St (Session * bool * option error) :=
  emit (CallFetchByID ctx id) ;;;
  onStore (fun st => FetchByID (store m) st ctx id).

Definition store_DeleteByID (ctx : Context) (id : string)
  : M St (option error) :=
  emit (CallDeleteByID ctx id) ;;;
  onStore (fun st => DeleteByID (store m) st ctx id).

Definition store_FetchByUserKey (ctx : Context) (key : string)
  : M St (Sessions * option error) :=
  emit (CallFetchByUserKey ctx key) ;;;
  onStore (fun st => FetchByUserKey (store m) st ctx key).

Definition store_DeleteByUserKey (ctx : Context) (key : string)
  (excludeIDs : list string) : M St (option error) :=
  emit (CallDeleteByUserKey ctx key excludeIDs) ;;;
  onStore (fun st => DeleteByUserKey (store m) st ctx key excludeIDs).

Definition call_reject (e : error) (r : Request) : M St unit :=
  emit (CallReject e r) ;;;
  ServeHTTP (reject m e) r.

Definition call_next (next : Handler St) (r : Request) : M St unit :=
  emit (CallNext r) ;;;
  ServeHTTP next r.

Definition call_genID : M St string :=
  fun w => let (id, e') := genID m (w_entropy w) in
           (id, mkWorld (w_store w) (w_cookies w) (w_now w) e' (w_log w)).

(** *** Cookies *)

Definition setCookie (exp : Time) (tok : string) : M St unit :=
  let c := mkCookie (name (cookie m)) tok (path (cookie m))
                    (domain (cookie m)) exp (secure (cookie m))
                    (httpOnly (cookie m)) (sameSite (cookie m)) in
  http_SetCookie c.

Definition deleteCookie : M St unit :=
  now <- time_Now ;;
  setCookie (Add now (- Hour * 24 * 30)) "".

(** *** Sessions *)

(** Modelled from the spec: [newSession] is declared outside manager.go.
    Section 4.1: a freshly generated ID, CreatedAt = now, ExpiresAt = now +
    configured duration (or zero if no duration configured), IP and
    UserAgent populated only if the corresponding capture policy is on. *)
Definition newSession (r : Request) (key : string) : M St Session :=
  now <- time_Now ;;
  id <- call_genID ;;
  ret (mkSession false now
         (if expiresIn m =? 0 then zeroTime else Add now (expiresIn m))
         id key
         (if withIP m then req_ip r else "")
         (if withAgent m then req_agent r else "")).

(** *** Init *)

Definition Init (r : Request) (key : string) : M St (option error) :=
  s <- newSession r key ;;
  let finish := setCookie (ExpiresAt s) (ID s) ;;; ret None in
  if After (ExpiresAt s) zeroTime then
    err <- store_Create (req_ctx r) s ;;
    match err with
    | Some e => ret (Some e)
    | None => finish
    end
  else finish.

(** *** Auth *)

Definition Auth (next : Handler St) (r : Request) : M St unit :=
  match Request_Cookie r (name (cookie m)) with
  | inr err => call_reject err r
  | inl c =>
      let ctx := req_ctx r in
      res <- store_FetchByID ctx c ;;
      let '(s, ok, err) := res in
      match err with
      | Some e => call_reject e r
      | None =>
          if negb ok then call_reject (Err "unauthorized") r
          else call_next next (WithContext r (newContext ctx s))
      end
  end.

(** *** Revoke, RevokeOther, RevokeAll *)

Definition Revoke (ctx : Context) : M St (option error) :=
  let (s, ok) := FromContext ctx in
  if negb ok then ret None
  else
    err <- store_DeleteByID ctx (ID s) ;;
    match err with
    | Some e => ret (Some e)
    | None => deleteCookie ;;; ret None
    end.

Definition RevokeOther (ctx : Context) (key : string) : M St (option error) :=
  let (s, _) := FromContext ctx in
  store_DeleteByUserKey ctx key [ID s].

Definition RevokeAll (ctx : Context) (key : string) : M St (option error) :=
  err <- store_DeleteByUserKey ctx key [] ;;
  match err with
  | Some e => ret (Some e)
  | None => deleteCookie ;;; ret None
  end.

(** *** FetchAll *)

(** The loop of [FetchAll]: the first entry whose ID is [id] gets
    [Current = true] and the loop breaks; nothing else is written. *)
Fixpoint markCurrent (id : string) (ss : list Session) : list Session :=
  match ss with
  | [] => []
  | s :: rest =>
      if String.eqb (ID s) id then setCurrent s true :: rest
      else s :: markCurrent id rest
  end.

Definition FetchAll (ctx : Context) (key : string)
  : M St (Sessions * option error) :=
  res <- store_FetchByUserKey ctx key ;;
  let (ss, err) := res in
  match err with
  | Some e => ret (None, Some e)
  | None =>
      match ss with
      | None => ret (None, None)
      | Some l =>
          let (cs, ok) := FromContext ctx in
          if negb ok then ret (Some l, None)
          else ret (Some (markCurrent (ID cs) l), None)
      end
  end.

End Operations.

(** ** Configuration *)

Definition defaultName : string := "sessionup".
Definition idLen : nat := 30.

(** [DefaultGenID] asks uniuri for [idLen] characters; here the characters
    are read off the entropy, which is then advanced. *)
Fixpoint idChars (len : nat) (n : N) : string :=
  match len with
  | O => EmptyString
  | S k => String (Ascii.ascii_of_N (97 + N.modulo n 26)) (idChars k (N.div n 26))
  end.

Definition DefaultGenID (n : N) : string * N := (idChars idLen n, N.succ n).

(** [DefaultReject] answers 401 with a JSON body; it touches neither the
    store nor the cookies of the response. *)
Definition DefaultReject {St : Type} (err : error) : Handler St :=
  fun _ env => env.

Section Configuration.

Context {St : Type}.

(** A [setter] sets one configuration option of a manager. *)
Definition setter : Type := Manager St -> Manager St.

Definition withCookieCfg (m : Manager St) (c : cookieCfg) : Manager St :=
  mkManager (store m) c (expiresIn m) (withIP m) (withAgent m)
            (genID m) (reject m).

Definition CookieName (n : string) : setter := fun m =>
  withCookieCfg m
    (mkCookieCfg n (domain (cookie m)) (path (cookie m)) (secure (cookie m))
                 (httpOnly (cookie m)) (sameSite (cookie m))).

Definition Domain (d : string) : setter := fun m =>
  withCookieCfg m
    (mkCookieCfg (name (cookie m)) d (path (cookie m)) (secure (cookie m))
                 (httpOnly (cookie m)) (sameSite (cookie m))).

Definition Path (p : string) : setter := fun m =>
  withCookieCfg m
    (mkCookieCfg (name (cookie m)) (domain (cookie m)) p (secure (cookie m))
                 (httpOnly (cookie m)) (sameSite (cookie m))).

Definition Secure (b : bool) : setter := fun m =>
  withCookieCfg m
    (mkCookieCfg (name (cookie m)) (domain (cookie m)) (path (cookie m)) b
                 (httpOnly (cookie m)) (sameSite (cookie m))).

Definition HttpOnly (b : bool) : setter := fun m =>
  withCookieCfg m
    (mkCookieCfg (name (cookie m)) (domain (cookie m)) (path (cookie m))
                 (secure (cookie m)) b (sameSite (cookie m))).

Definition SameSite (x : http_SameSite) : setter := fun m =>
  withCookieCfg m
    (mkCookieCfg (name (cookie m)) (domain (cookie m)) (path (cookie m))
                 (secure (cookie m)) (httpOnly (cookie m)) x).

Definition ExpiresIn (e : Duration) : setter := fun m =>
  mkManager (store m) (cookie m) e (withIP m) (withAgent m)
            (genID m) (reject m).

Definition WithIP (b : bool) : setter := fun m =>
  mkManager (store m) (cookie m) (expiresIn m) b (withAgent m)
            (genID m) (reject m).

Definition WithAgent (b : bool) : setter := fun m =>
  mkManager (store m) (cookie m) (expiresIn m) (withIP m) b
            (genID m) (reject m).

Definition GenID (g : N -> string * N) : setter := fun m =>
  mkManager (store m) (cookie m) (expiresIn m) (withIP m) (withAgent m)
            g (reject m).

Definition Reject (rj : error -> Handler St) : setter := fun m =>
  mkManager (store m) (cookie m) (expiresIn m) (withIP m) (withAgent m)
            (genID m) rj.

(** [Defaults] resets every option it knows; the cookie domain and the
    expiry duration are not among them. *)
Definition Defaults (m : Manager St) : Manager St :=
  mkManager (store m)
            (mkCookieCfg defaultName (domain (cookie m)) "/" true true
                         SameSiteStrictMode)
            (expiresIn m) true true DefaultGenID DefaultReject.

Definition applyOpts (m : Manager St) (opts : list setter) : Manager St :=
  fold_left (fun acc o => o acc) opts m.

(** [NewManager]: the zero manager around the store (empty domain, zero
    duration), then [Defaults], then the options in order. *)
Definition NewManager (s : Store St) (opts : list setter) : Manager St :=
  applyOpts
    (Defaults (mkManager s (mkCookieCfg "" "" "" false false SameSiteDefaultMode)
                         0 false false DefaultGenID DefaultReject))
    opts.

(** [Clone] copies the manager and applies the options to the copy. *)
Definition Clone (m : Manager St) (opts : list setter) : Manager St :=
  applyOpts m opts.

End Configuration.

Definition defaultCookie : cookieCfg :=
  mkCookieCfg defaultName "" "/" true true SameSiteStrictMode.

(** ** A reference store *)

(** Modelled from the spec: the store is an external collaborator, known to
    the manager only through the interface of section 6.  This in-memory
    store keeps the sessions in insertion order: Create inserts,
    FetchByID resolves by token, DeleteByID is an idempotent delete,
    FetchByUserKey returns all sessions of one principal, an empty result
    as the no-results signal, DeleteByUserKey is a bulk delete that spares
    the excluded IDs. *)
Module MemStore.

Definition St : Type := list Session.

Definition hasID (id : string) (s : Session) : bool := String.eqb (ID s) id.
Definition hasKey (key : string) (s : Session) : bool :=
  String.eqb (UserKey s) key.
Definition excluded (ids : list string) (s : Session) : bool :=
  existsb (String.eqb (ID s)) ids.

Definition create (st : St) (_ : Context) (s : Session) : option error * St :=
  (None, st ++ [s]).

Definition fetchByID (st : St) (_ : Context) (id : string)
  : (Session * bool * option error) * St :=
  match find (hasID id) st with
  | Some s => ((s, true, None), st)
  | None => ((zeroSession, false, None), st)
  end.

Definition deleteByID (st : St) (_ : Context) (id : string)
  : option error * St :=
  (None, filter (fun s => negb (hasID id s)) st).

Definition fetchByUserKey (st : St) (_ : Context) (key : string)
  : (Sessions * option error) * St :=
  match filter (hasKey key) st with
  | [] => ((None, None), st)
  | l => ((Some l, None), st)
  end.

Definition deleteByUserKey (st : St) (_ : Context) (key : string)
  (ids : list string) : option error * St :=
  (None, filter (fun s => negb (hasKey key s) || excluded ids s) st).

Definition store : Store St :=
  mkStore St create fetchByID deleteByID fetchByUserKey deleteByUserKey.

End MemStore.

(** A store whose backend is down: every method fails with the same
    error and leaves the state alone. *)
Module DownStore.

Definition St : Type := unit.
Definition down : error := Err "store: connection refused".

Definition store : Store St :=
  mkStore St
    (fun st _ _ => (Some down, st))
    (fun st _ _ => ((zeroSession, false, Some down), st))
    (fun st _ _ => (Some down, st))
    (fun st _ _ => ((None, Some down), st))
    (fun st _ _ _ => (Some down, st)).

End DownStore.

(** A store that hands back whatever rows it holds, as a database driver
    that scans into a freshly made slice does: the slice is never nil and
    the [Current] column comes back as stored. *)
Module RowStore.

Definition St : Type := list Session.

Definition store : Store St :=
  mkStore St
    (fun st _ s => (None, st ++ [s]))
    (fun st ctx id => MemStore.fetchByID st ctx id)
    (fun st ctx id => MemStore.deleteByID st ctx id)
    (fun st _ key => ((Some (filter (MemStore.hasKey key) st), None), st))
    (fun st ctx key ids => MemStore.deleteByUserKey st ctx key ids).

End RowStore.

(** ** What an operation added to the world *)

(** The events logged, and the cookies written, between [w] and [w']. *)
Definition logged {St : Type} (w w' : World St) : list Event :=
  skipn (length (w_log w)) (w_log w').

Definition written {St : Type} (w w' : World St) : list Cookie :=
  skipn (length (w_cookies w)) (w_cookies w').

(** The cookie [Init] issues for session [s]. *)
Definition sessionCookie {St : Type} (m : Manager St) (s : Session) : Cookie :=
  mkCookie (name (cookie m)) (ID s) (path (cookie m)) (domain (cookie m))
           (ExpiresAt s) (secure (cookie m)) (httpOnly (cookie m))
           (sameSite (cookie m)).

Definition withCookie {St : Type} (w : World St) (c : Cookie) : World St :=
  mkWorld (w_store w) (w_cookies w ++ [c]) (w_now w) (w_entropy w) (w_log w).

Definition afterCall {St : Type} (w : World St) (st' : St) (e : Event) : World St :=
  mkWorld st' (w_cookies w) (w_now w) (w_entropy w) (w_log w ++ [e]).

(** The cookie [deleteCookie] writes when the clock reads [now]. *)
Definition deletionCookie {St : Type} (m : Manager St) (now : Time) : Cookie :=
  mkCookie (name (cookie m)) "" (path (cookie m)) (domain (cookie m))
           (Add now (- Hour * 24 * 30)) (secure (cookie m))
           (httpOnly (cookie m)) (sameSite (cookie m)).

(** Index [i] holds the first entry of [l] whose ID is [id]. *)
Definition isFirstMatch (id : string) (l : list Session) (i : nat) : bool :=
  match nth_error l i with
  | Some s =>
      String.eqb (ID s) id
      && forallb (fun t => negb (String.eqb (ID t) id)) (firstn i l)
  | None => false
  end.

(** A manager over the reference store. *)
Definition memManager (cfg : cookieCfg) (d : Duration) (ip agent : bool)
  (g : N -> string * N) (rj : error -> Handler MemStore.St)
  : Manager MemStore.St :=
  mkManager MemStore.store cfg d ip agent g rj.

(** ** Worked requests *)

Module Examples.

(** A clock reading in the year 2026, in nanoseconds since year 1. *)
Definition now0 : Time := 63900000000000000000.

Definition alice1 : Session :=
  mkSession false (now0 - Hour) (now0 + Hour) "tok-a1" "alice"
            "10.0.0.1" "curl/8".
Definition alice2 : Session :=
  mkSession false (now0 - 2 * Hour) (now0 + Hour) "tok-a2" "alice"
            "10.0.0.2" "firefox".
Definition bob1 : Session :=
  mkSession false (now0 - Hour) (now0 + Hour) "tok-b1" "bob"
            "10.0.0.3" "safari".

(** A row whose Current column was stored as true. *)
Definition stale : Session := setCurrent alice2 true.

Definition mgr : Manager MemStore.St := NewManager MemStore.store [].
Definition mgrDay : Manager MemStore.St :=
  NewManager MemStore.store [ExpiresIn (24 * Hour)].
Definition mgrDown : Manager DownStore.St := NewManager DownStore.store [].
Definition mgrRow : Manager RowStore.St := NewManager RowStore.store [].

Definition w0 : World MemStore.St :=
  mkWorld [alice1; alice2; bob1] [] now0 7 [].
Definition wEmpty : World MemStore.St := mkWorld [] [] now0 7 [].
Definition wDown : World DownStore.St := mkWorld tt [] now0 7 [].
Definition wRowStale : World RowStore.St :=
  mkWorld [alice1; stale] [] now0 7 [].

Definition reqAlice : Request :=
  mkRequest [("theme", "dark"); ("sessionup", "tok-a1")] background
            "10.0.0.1" "curl/8".
Definition reqAnon : Request :=
  mkRequest [("theme", "dark")] background "10.0.0.9" "curl/8".

Definition ctxAlice : Context := newContext background alice1.

Definition nextOK {St : Type} : Handler St := fun _ env => env.

End Examples.

Import Examples.

(** ** What the manager expects of a store and of its IDs *)


(** Modelled from the spec: section 6 has the ID generator produce a
    sufficiently unique, unguessable token; no session of the key is
    stored under the empty ID. *)
Definition noEmptyID (key : string) (st : list Session) : Prop :=
  forall s, In s st -> UserKey s = key -> ID s <> "".

(** ** Further observations *)

(** The world after the manager has logged call [e] and handler [h] has
    served request [r]. *)
Definition served {St : Type} (w : World St) (e : Event) (h : Handler St)
  (r : Request) : World St :=
  let (st', cs') := h r (w_store w, w_cookies w) in
  mkWorld st' cs' (w_now w) (w_entropy w) (w_log w ++ [e]).

(** How many entries carry [Current = true]. *)
Definition countCurrent (l : list Session) : nat :=
  length (filter Current l).

(** The options the package exports, as data: one constructor per named
    setter of manager.go, [denote] giving the setter itself. *)
Inductive Opt (St : Type) : Type :=
| OCookieName (n : string)
| ODomain (d : string)
| OPath (p : string)
| OSecure (b : bool)
| OHttpOnly (b : bool)
| OSameSite (x : http_SameSite)
| OExpiresIn (e : Duration)
| OWithIP (b : bool)
| OWithAgent (b : bool)
| OGenID (g : N -> string * N)
| OReject (rj : error -> Handler St).

Arguments OCookieName {St}.
Arguments ODomain {St}.
Arguments OPath {St}.
Arguments OSecure {St}.
Arguments OHttpOnly {St}.
Arguments OSameSite {St}.
Arguments OExpiresIn {St}.
Arguments OWithIP {St}.
Arguments OWithAgent {St}.
Arguments OGenID {St}.
Arguments OReject {St}.

Definition denote {St : Type} (o : Opt St) : @setter St :=
  match o with
  | OCookieName n => CookieName n
  | ODomain d => Domain d
  | OPath p => Path p
  | OSecure b => Secure b
  | OHttpOnly b => HttpOnly b
  | OSameSite x => SameSite x
  | OExpiresIn e => ExpiresIn e
  | OWithIP b => WithIP b
  | OWithAgent b => WithAgent b
  | OGenID g => GenID g
  | OReject rj => Reject rj
  end.

(** The configuration fields of a manager, the store apart. *)
Inductive Field : Type :=
| FName | FDomain | FPath | FSecure | FHttpOnly | FSameSite
| FExpiresIn | FWithIP | FWithAgent | FGenID | FReject.

(** The field an option assigns. *)
Definition sets {St : Type} (o : Opt St) : Field :=
  match o with
  | OCookieName _ => FName
  | ODomain _ => FDomain
  | OPath _ => FPath
  | OSecure _ => FSecure
  | OHttpOnly _ => FHttpOnly
  | OSameSite _ => FSameSite
  | OExpiresIn _ => FExpiresIn
  | OWithIP _ => FWithIP
  | OWithAgent _ => FWithAgent
  | OGenID _ => FGenID
  | OReject _ => FReject
  end.

(** Two managers agree on field [f]. *)
Definition sameField {St : Type} (f : Field) (a b : Manager St) : Prop :=
  match f with
  | FName => name (cookie a) = name (cookie b)
  | FDomain => domain (cookie a) = domain (cookie b)
  | FPath => path (cookie a) = path (cookie b)
  | FSecure => secure (cookie a) = secure (cookie b)
  | FHttpOnly => httpOnly (cookie a) = httpOnly (cookie b)
  | FSameSite => sameSite (cookie a) = sameSite (cookie b)
  | FExpiresIn => expiresIn a = expiresIn b
  | FWithIP => withIP a = withIP b
  | FWithAgent => withAgent a = withAgent b
  | FGenID => genID a = genID b
  | FReject => reject a = reject b
  end.

(** A request whose session cookie names no stored session, and a request
    that carries cookie [c] alone. *)
Definition reqUnknown : Request :=
  mkRequest [("sessionup", "tok-zz")] background "10.0.0.7" "curl/8".

Definition reqWith (c : Cookie) : Request :=
  mkRequest [(Name c, Value c)] background "10.0.0.8" "curl/8".

(** * Properties *)

Lemma skipn_app_exact {A : Type} (l k : list A) :
  skipn (length l) (l ++ k) = k.
Proof.
  induction l as [|a l IH]; simpl; [reflexivity | exact IH].
Qed.

Lemma skipn_self {A : Type} (l : list A) : skipn (length l) l = [].
Proof.
  induction l as [|a l IH]; simpl; [reflexivity | exact IH].
Qed.

Lemma findCookie_absent (n : string) (cs : list (string * string)) :
  (forall v, ~ In (n, v) cs) -> findCookie n cs = None.
Proof.
  induction cs as [|[n' v'] cs IH]; intros Habs; simpl.
  - reflexivity.
  - destruct (String.eqb n' n) eqn:E.
    + apply String.eqb_eq in E. subst n'.
      exfalso. apply (Habs v'). left. reflexivity.
    + apply IH. intros v Hin. apply (Habs v). right. exact Hin.
Qed.

Lemma Request_Cookie_absent (r : Request) (n : string) :
  (forall v, ~ In (n, v) (req_cookies r)) ->
  Request_Cookie r n = inr ErrNoCookie.
Proof.
  intros Habs. unfold Request_Cookie.
  destruct (String.eqb n ""); [reflexivity|].
  rewrite (findCookie_absent _ _ Habs). reflexivity.
Qed.

Ltac run :=
  unfold call_reject, call_next, store_Create, store_FetchByID,
    store_DeleteByID, store_FetchByUserKey, store_DeleteByUserKey,
    deleteCookie, setCookie, http_SetCookie, time_Now, ServeHTTP,
    onStore, emit, bind, ret; simpl.

(** ** Auth *)

Section AuthProps.

Context {St : Type}.
Variable m : Manager St.
Variable next : Handler St.

(** C1.  A request whose configured cookie resolves through the store to an
    existing session is forwarded to the next handler exactly once; the
    forwarded request's context carries exactly the session FetchByID
    returned; the rejection handler is not invoked.  The only store call
    is that FetchByID, and the world after the call is the one the next
    handler leaves. *)
Theorem Auth_forwards_resolved_session
  (r : Request) (w : World St) (c : string) (s : Session) (st' : St) :
  Request_Cookie r (name (cookie m)) = inl c ->
  FetchByID (store m) (w_store w) (req_ctx r) c = ((s, true, None), st') ->
  let r' := WithContext r (newContext (req_ctx r) s) in
  let w' := snd (Auth m next r w) in
  w_log w' = w_log w ++ [CallFetchByID (req_ctx r) c; CallNext r']
  /\ count isNext (logged w w') = 1%nat
  /\ count isReject (logged w w') = 0%nat
  /\ FromContext (req_ctx r') = (s, true)
  /\ (w_store w', w_cookies w') = next r' (st', w_cookies w).
Proof.
  intros Hc Hf r' w'.
  assert (Hlog : w_log w' = w_log w ++ [CallFetchByID (req_ctx r) c; CallNext r']).
  { subst w' r'. unfold Auth. rewrite Hc. run. rewrite Hf. simpl.
    destruct (next _ _). simpl. rewrite <- app_assoc. reflexivity. }
  unfold logged. rewrite Hlog, skipn_app_exact.
  repeat split.
  subst w' r'. unfold Auth. rewrite Hc. run. rewrite Hf. simpl.
  destruct (next _ _). reflexivity.
Qed.

(** C2.  A request that does not carry the configured session cookie is
    handed to the rejection handler, built from the not-found error of
    the cookie lookup; no store method is called, the store state is
    what the rejection handler leaves, and the next handler is never
    invoked. *)
Theorem Auth_rejects_missing_cookie (r : Request) (w : World St) :
  (forall v, ~ In (name (cookie m), v) (req_cookies r)) ->
  let w' := snd (Auth m next r w) in
  w_log w' = w_log w ++ [CallReject ErrNoCookie r]
  /\ count isStoreCall (logged w w') = 0%nat
  /\ count isNext (logged w w') = 0%nat
  /\ count isReject (logged w w') = 1%nat
  /\ (w_store w', w_cookies w')
     = reject m ErrNoCookie r (w_store w, w_cookies w).
Proof.
  intros Habs w'.
  pose proof (Request_Cookie_absent r _ Habs) as Hc.
  assert (Hlog : w_log w' = w_log w ++ [CallReject ErrNoCookie r]).
  { subst w'. unfold Auth. rewrite Hc. run.
    destruct (reject m _ _ _). reflexivity. }
  unfold logged. rewrite Hlog, skipn_app_exact.
  repeat split.
  subst w'. unfold Auth. rewrite Hc. run.
  destruct (reject m _ _ _). reflexivity.
Qed.

End AuthProps.

(** ** Init *)

Section InitProps.

Context {St : Type}.
Variable m : Manager St.

Lemma newSession_world (r : Request) (key : string) (w : World St) :
  let w1 := snd (newSession m r key w) in
  w_store w1 = w_store w /\ w_cookies w1 = w_cookies w
  /\ w_now w1 = w_now w /\ w_log w1 = w_log w.
Proof.
  unfold newSession, call_genID, time_Now, bind, ret. simpl.
  destruct (genID m (w_entropy w)). simpl. repeat split.
Qed.

Lemma newSession_expiry (r : Request) (key : string) (w : World St) :
  ExpiresAt (fst (newSession m r key w))
  = if expiresIn m =? 0 then zeroTime else Add (w_now w) (expiresIn m).
Proof.
  unfold newSession, call_genID, time_Now, bind, ret. simpl.
  destruct (genID m (w_entropy w)). reflexivity.
Qed.

Lemma newSession_after_iff_nonzero (r : Request) (key : string) (w : World St) :
  isDuration (expiresIn m) -> clockAfterEpoch (w_now w) ->
  After (ExpiresAt (fst (newSession m r key w))) zeroTime
  = negb (ExpiresAt (fst (newSession m r key w)) =? zeroTime).
Proof.
  unfold isDuration, clockAfterEpoch, minInt64, maxInt64, Add, zeroTime.
  intros Hd Hn. rewrite newSession_expiry.
  unfold After, Add, zeroTime.
  destruct (expiresIn m =? 0) eqn:E.
  - reflexivity.
  - assert (0 < w_now w + expiresIn m) by lia.
    assert ((0 <? w_now w + expiresIn m) = true) as -> by (apply Z.ltb_lt; lia).
    assert ((w_now w + expiresIn m =? 0) = false) as -> by (apply Z.eqb_neq; lia).
    reflexivity.
Qed.

Lemma Init_run (r : Request) (key : string) (w : World St) :
  Init m r key w
  = let (s, w1) := newSession m r key w in
    if After (ExpiresAt s) zeroTime then
      let (err, st') := Create (store m) (w_store w1) (req_ctx r) s in
      let w2 := afterCall w1 st' (CallCreate (req_ctx r) s) in
      match err with
      | Some e => (Some e, w2)
      | None => (None, withCookie w2 (sessionCookie m s))
      end
    else (None, withCookie w1 (sessionCookie m s)).
Proof.
  unfold Init, bind at 1.
  destruct (newSession m r key w) as [s w1].
  destruct (After (ExpiresAt s) zeroTime).
  - run. destruct (Create (store m) (w_store w1) (req_ctx r) s) as [[e|] st'];
      reflexivity.
  - reflexivity.
Qed.

(** C3.  Init calls the store's Create exactly when the session it built
    has a non-zero ExpiresAt, so a session with zero ExpiresAt is never
    persisted; whenever Create returns an error, Init returns that very
    error and writes no cookie.  Otherwise the session's cookie is set.
    The configured duration is an int64 and the wall clock reads a time
    that no duration takes back before the zero instant. *)
Theorem Init_creates_iff_expiry (r : Request) (key : string) (w : World St) :
  isDuration (expiresIn m) -> clockAfterEpoch (w_now w) ->
  let s := fst (newSession m r key w) in
  let res := fst (Init m r key w) in
  let w' := snd (Init m r key w) in
  w_log w' = w_log w
             ++ (if ExpiresAt s =? zeroTime then []
                 else [CallCreate (req_ctx r) s])
  /\ (In (CallCreate (req_ctx r) s) (logged w w') <-> ExpiresAt s <> zeroTime)
  /\ (ExpiresAt s = zeroTime -> count isStoreCall (logged w w') = 0%nat)
  /\ (forall e : error,
        ExpiresAt s <> zeroTime ->
        fst (Create (store m) (w_store w) (req_ctx r) s) = Some e ->
        res = Some e /\ w_cookies w' = w_cookies w)
  /\ (ExpiresAt s = zeroTime
      \/ fst (Create (store m) (w_store w) (req_ctx r) s) = None ->
      res = None /\ w_cookies w' = w_cookies w ++ [sessionCookie m s]).
Proof.
  intros Hd Hn s res w'.
  pose proof (newSession_after_iff_nonzero r key w Hd Hn) as Haft.
  pose proof (newSession_world r key w) as Hw1. simpl in Hw1.
  destruct Hw1 as (Hst & Hck & _ & Hlg).
  fold s in Haft.
  subst res w'. rewrite Init_run.
  destruct (newSession m r key w) as [s1 w1] eqn:Hns.
  simpl in s, Hst, Hck, Hlg. subst s. rewrite Haft, Hst.
  unfold logged.
  destruct (ExpiresAt s1 =? zeroTime) eqn:Ez; simpl.
  - apply Z.eqb_eq in Ez.
    rewrite Hlg, Hck, app_nil_r, skipn_self.
    split; [reflexivity|].
    split; [split; [intros [] | intros H; elim H; exact Ez]|].
    split; [reflexivity|].
    split; [intros e H; elim H; exact Ez|].
    intros _. split; reflexivity.
  - apply Z.eqb_neq in Ez.
    destruct (Create (store m) (w_store w) (req_ctx r) s1) as [[e|] st'];
      simpl; rewrite Hlg, Hck, skipn_app_exact.
    + split; [reflexivity|].
      split; [split; [intros _; exact Ez | intros _; left; reflexivity]|].
      split; [intros H; elim Ez; exact H|].
      split; [intros e0 _ He; inversion He; subst; split; reflexivity|].
      intros [H|H]; [elim Ez; exact H | discriminate H].
    + split; [reflexivity|].
      split; [split; [intros _; exact Ez | intros _; left; reflexivity]|].
      split; [intros H; elim Ez; exact H|].
      split; [intros e0 _ He; discriminate He|].
      intros _. split; reflexivity.
Qed.

End InitProps.

(** ** Revoke, RevokeOther, RevokeAll *)

Section RevokeRuns.

Context {St : Type}.
Variable m : Manager St.

Lemma deleteCookie_run (w : World St) :
  deleteCookie m w = (tt, withCookie w (deletionCookie m (w_now w))).
Proof. reflexivity. Qed.

Lemma Revoke_run (ctx : Context) (w : World St) :
  Revoke m ctx w
  = match ctx_session ctx with
    | None => (None, w)
    | Some s =>
        let (err, st') := DeleteByID (store m) (w_store w) ctx (ID s) in
        let w1 := afterCall w st' (CallDeleteByID ctx (ID s)) in
        match err with
        | Some e => (Some e, w1)
        | None => (None, withCookie w1 (deletionCookie m (w_now w)))
        end
    end.
Proof.
  unfold Revoke, FromContext.
  destruct (ctx_session ctx) as [s|]; simpl; [|reflexivity].
  run. destruct (DeleteByID (store m) (w_store w) ctx (ID s)) as [[e|] st'];
    reflexivity.
Qed.

Lemma RevokeOther_run (ctx : Context) (key : string) (w : World St) :
  let id := ID (fst (FromContext ctx)) in
  RevokeOther m ctx key w
  = let (err, st') := DeleteByUserKey (store m) (w_store w) ctx key [id] in
    (err, afterCall w st' (CallDeleteByUserKey ctx key [id])).
Proof.
  unfold RevokeOther, FromContext.
  destruct (ctx_session ctx) as [s|]; simpl; run;
    match goal with |- context [DeleteByUserKey ?a ?b ?c ?d ?e] =>
      destruct (DeleteByUserKey a b c d e) end; reflexivity.
Qed.

Lemma RevokeAll_run (ctx : Context) (key : string) (w : World St) :
  RevokeAll m ctx key w
  = let (err, st') := DeleteByUserKey (store m) (w_store w) ctx key [] in
    let w1 := afterCall w st' (CallDeleteByUserKey ctx key []) in
    match err with
    | Some e => (Some e, w1)
    | None => (None, withCookie w1 (deletionCookie m (w_now w)))
    end.
Proof.
  unfold RevokeAll. run.
  destruct (DeleteByUserKey (store m) (w_store w) ctx key []) as [[e|] st'];
    reflexivity.
Qed.

End RevokeRuns.


(** What the reference store holds after a bulk delete. *)
Lemma MemStore_deleteByUserKey_In
  (st : MemStore.St) (ctx : Context) (key : string) (ids : list string)
  (s : Session) :
  In s (snd (MemStore.deleteByUserKey st ctx key ids))
  <-> In s st /\ (UserKey s <> key \/ In (ID s) ids).
Proof.
  unfold MemStore.deleteByUserKey. simpl. rewrite filter_In.
  unfold MemStore.hasKey, MemStore.excluded.
  split; intros [Hin H]; split; try exact Hin.
  - apply orb_true_iff in H. destruct H as [H|H].
    + left. apply negb_true_iff, String.eqb_neq in H. exact H.
    + right. apply existsb_exists in H. destruct H as (x & Hx & E).
      apply String.eqb_eq in E. subst x. exact Hx.
  - apply orb_true_iff. destruct H as [H|H].
    + left. apply negb_true_iff, String.eqb_neq. exact H.
    + right. apply existsb_exists. exists (ID s). split; [exact H|].
      apply String.eqb_refl.
Qed.

(** C4.  On a context with no bound session Revoke returns nil and leaves
    the world as it was: no store call, no cookie write.  On a context
    with a bound session it calls DeleteByID with that session's ID, hands
    the store's error to its caller, and writes the deletion cookie only
    when the store deletion succeeded. *)
Theorem Revoke_unbound_noop_bound_deletes
  {St : Type} (m : Manager St) (ctx : Context) (w : World St) :
  (ctx_session ctx = None -> Revoke m ctx w = (None, w))
  /\ (forall s : Session, ctx_session ctx = Some s ->
      let res := fst (Revoke m ctx w) in
      let w' := snd (Revoke m ctx w) in
      w_log w' = w_log w ++ [CallDeleteByID ctx (ID s)]
      /\ res = fst (DeleteByID (store m) (w_store w) ctx (ID s))
      /\ w_store w' = snd (DeleteByID (store m) (w_store w) ctx (ID s))
      /\ written w w'
         = match res with
           | None => [deletionCookie m (w_now w)]
           | Some _ => []
           end).
Proof.
  split.
  - intros Hn. rewrite Revoke_run, Hn. reflexivity.
  - intros s Hs res w'. subst res w'. rewrite Revoke_run, Hs.
    unfold written.
    destruct (DeleteByID (store m) (w_store w) ctx (ID s)) as [[e|] st'];
      simpl; repeat split.
    + apply skipn_self.
    + apply skipn_app_exact.
Qed.

(** C5.  RevokeOther makes one store call, DeleteByUserKey with the key
    and the ID that FromContext yields; it returns what that call returns,
    leaves the store in the state that call leaves, and never writes or
    deletes a cookie.  On the reference store, where no session of the
    key is stored under the empty ID, the sessions of the key are all
    deleted except the one with the ID of the context-bound session; when
    no session is bound all sessions of the key are deleted, nothing is
    excluded.  Sessions of other keys stay. *)
Theorem RevokeOther_deletes_all_but_bound :
  (forall (St : Type) (m : Manager St) (ctx : Context) (key : string)
          (w : World St),
      let id := ID (fst (FromContext ctx)) in
      let res := fst (RevokeOther m ctx key w) in
      let w' := snd (RevokeOther m ctx key w) in
      logged w w' = [CallDeleteByUserKey ctx key [id]]
      /\ res = fst (DeleteByUserKey (store m) (w_store w) ctx key [id])
      /\ w_store w' = snd (DeleteByUserKey (store m) (w_store w) ctx key [id])
      /\ w_cookies w' = w_cookies w
      /\ written w w' = [])
  /\ (forall cfg d ip agent g rj (ctx : Context) (key : string)
             (w : World MemStore.St),
      (ctx_session ctx = None -> noEmptyID key (w_store w)) ->
      let mm := memManager cfg d ip agent g rj in
      let w' := snd (RevokeOther mm ctx key w) in
      fst (RevokeOther mm ctx key w) = None
      /\ (forall s : Session,
            In s (w_store w')
            <-> In s (w_store w)
                /\ (UserKey s <> key
                    \/ exists cs, ctx_session ctx = Some cs /\ ID s = ID cs))
      /\ (ctx_session ctx = None ->
          forall s, In s (w_store w') -> UserKey s <> key)).
Proof.
  split.
  - intros St m ctx key w id res w'. subst res w'.
    pose proof (RevokeOther_run m ctx key w) as Hr. simpl in Hr.
    fold id in Hr. rewrite Hr. unfold logged, written.
    destruct (DeleteByUserKey (store m) (w_store w) ctx key [id]).
    simpl. rewrite skipn_app_exact, skipn_self. repeat split.
  - intros cfg d ip agent g rj ctx key w Hids mm w'.
    assert (Hmain : forall s : Session,
              In s (w_store w')
              <-> In s (w_store w)
                  /\ (UserKey s <> key
                      \/ exists cs, ctx_session ctx = Some cs /\ ID s = ID cs)).
    { intros s. subst w' mm.
      pose proof (RevokeOther_run (memManager cfg d ip agent g rj) ctx key w)
        as Hr.
      simpl in Hr. rewrite Hr. simpl.
      pose proof (MemStore_deleteByUserKey_In (w_store w) ctx key
                    [ID (fst (FromContext ctx))] s) as H.
      simpl in H. rewrite H. unfold FromContext.
      destruct (ctx_session ctx) as [cs|] eqn:Hctx; simpl.
      - split; intros [Hin Hc]; (split; [exact Hin|]).
        + destruct Hc as [Hc|[Hc|[]]]; [left; exact Hc|].
          right. exists cs. split; [reflexivity | symmetry; exact Hc].
        + destruct Hc as [Hc|(cs' & Hcs & Hc)]; [left; exact Hc|].
          inversion Hcs; subst cs'. right. left. symmetry. exact Hc.
      - split; intros [Hin Hc]; (split; [exact Hin|]).
        + destruct Hc as [Hc|[Hc|[]]]; [left; exact Hc|].
          left. intros Hk. apply (Hids eq_refl s Hin Hk). symmetry. exact Hc.
        + destruct Hc as [Hc|(cs' & Hcs & _)]; [left; exact Hc|].
          discriminate Hcs. }
    split; [|split].
    + subst mm.
      pose proof (RevokeOther_run (memManager cfg d ip agent g rj) ctx key w)
        as Hr.
      simpl in Hr. rewrite Hr. reflexivity.
    + exact Hmain.
    + intros Hn s Hs. apply Hmain in Hs. destruct Hs as [_ [Hk|(cs & Hcs & _)]].
      * exact Hk.
      * rewrite Hn in Hcs. discriminate Hcs.
Qed.

(** C10.  On a context with no bound session RevokeOther calls
    DeleteByUserKey with an exclusion list of exactly one element, the
    empty string, which is the ID of the zero-value session; the list is
    not the empty one.  What RevokeOther returns and the state it leaves
    the store in are those of that very call, and no cookie is written. *)
Theorem RevokeOther_unbound_excludes_empty_id
  {St : Type} (m : Manager St) (ctx : Context) (key : string) (w : World St) :
  ctx_session ctx = None ->
  let w' := snd (RevokeOther m ctx key w) in
  logged w w' = [CallDeleteByUserKey ctx key [ID zeroSession]]
  /\ [ID zeroSession] = [""]
  /\ length [ID zeroSession] = 1%nat
  /\ logged w w' <> [CallDeleteByUserKey ctx key []]
  /\ fst (RevokeOther m ctx key w)
     = fst (DeleteByUserKey (store m) (w_store w) ctx key [""])
  /\ w_store w' = snd (DeleteByUserKey (store m) (w_store w) ctx key [""])
  /\ w_cookies w' = w_cookies w.
Proof.
  intros Hn w'. subst w'.
  pose proof (RevokeOther_run m ctx key w) as Hr. simpl in Hr.
  unfold FromContext in Hr. rewrite Hn in Hr. simpl in Hr.
  rewrite Hr. unfold logged.
  destruct (DeleteByUserKey (store m) (w_store w) ctx key [""]).
  simpl. rewrite skipn_app_exact.
  repeat split. intros H. discriminate H.
Qed.

(** C6, as the code has it.  RevokeAll makes one store call,
    DeleteByUserKey with the key and no exclusion, whatever the context
    holds.  When the call succeeds the deletion cookie is written and nil
    returned; when it fails the error is returned and no cookie is
    written.  On the reference store no session of the key is left. *)
Theorem RevokeAll_deletes_then_clears_cookie :
  (forall (St : Type) (m : Manager St) (ctx : Context) (key : string)
          (w : World St),
      let res := fst (RevokeAll m ctx key w) in
      let w' := snd (RevokeAll m ctx key w) in
      w_log w' = w_log w ++ [CallDeleteByUserKey ctx key []]
      /\ res = fst (DeleteByUserKey (store m) (w_store w) ctx key [])
      /\ w_store w' = snd (DeleteByUserKey (store m) (w_store w) ctx key [])
      /\ written w w'
         = match res with
           | None => [deletionCookie m (w_now w)]
           | Some _ => []
           end)
  /\ (forall cfg d ip agent g rj (ctx : Context) (key : string)
             (w : World MemStore.St) (s : Session),
      let mm := memManager cfg d ip agent g rj in
      let w' := snd (RevokeAll mm ctx key w) in
      fst (RevokeAll mm ctx key w) = None
      /\ written w w' = [deletionCookie mm (w_now w)]
      /\ (In s (w_store w') <-> In s (w_store w) /\ UserKey s <> key)).
Proof.
  split.
  - intros St m ctx key w res w'. subst res w'. rewrite RevokeAll_run.
    unfold written.
    destruct (DeleteByUserKey (store m) (w_store w) ctx key []) as [[e|] st'];
      simpl; repeat split.
    + apply skipn_self.
    + apply skipn_app_exact.
  - intros cfg d ip agent g rj ctx key w s mm w'. subst w' mm.
    rewrite RevokeAll_run. unfold written. simpl.
    rewrite skipn_app_exact.
    split; [reflexivity|]. split; [reflexivity|].
    pose proof (MemStore_deleteByUserKey_In (w_store w) ctx key [] s) as H.
    simpl in H. rewrite H.
    split; intros [Hin Hc]; split; try exact Hin.
    + destruct Hc as [Hc|[]]. exact Hc.
    + left. exact Hc.
Qed.

(** C9.  Every cookie that Revoke, RevokeAll or deleteCookie itself writes
    carries the configured name and an empty value, and expires 30 days,
    hence at least 24 hours, before the clock's reading; neither the
    manager's expiry configuration nor the session's own expiry enters. *)
Theorem deleteCookie_writes_expired_cookie
  {St : Type} (m : Manager St) (ctx : Context) (key : string) (w : World St)
  (c : Cookie) :
  In c (written w (snd (Revoke m ctx w)))
  \/ In c (written w (snd (RevokeAll m ctx key w)))
  \/ In c (written w (snd (deleteCookie m w))) ->
  Name c = name (cookie m)
  /\ Value c = ""
  /\ Expires c = w_now w - 30 * (24 * Hour)
  /\ Expires c + 24 * Hour <= w_now w.
Proof.
  intros H.
  assert (Hc : c = deletionCookie m (w_now w)).
  { destruct H as [H|[H|H]].
    - rewrite Revoke_run in H. unfold written in H.
      destruct (ctx_session ctx) as [s|].
      + destruct (DeleteByID (store m) (w_store w) ctx (ID s)) as [[e|] st'];
          simpl in H.
        * rewrite skipn_self in H. destruct H.
        * rewrite skipn_app_exact in H.
          destruct H as [H|[]]. symmetry. exact H.
      + simpl in H. rewrite skipn_self in H. destruct H.
    - rewrite RevokeAll_run in H. unfold written in H.
      destruct (DeleteByUserKey (store m) (w_store w) ctx key [])
        as [[e|] st']; simpl in H.
      + rewrite skipn_self in H. destruct H.
      + rewrite skipn_app_exact in H.
        destruct H as [H|[]]. symmetry. exact H.
    - rewrite deleteCookie_run in H. unfold written in H. simpl in H.
      rewrite skipn_app_exact in H.
      destruct H as [H|[]]. symmetry. exact H. }
  subst c. unfold deletionCookie, Add, Hour, Minute, Second, Nanosecond.
  simpl Name. simpl Value. simpl Expires.
  repeat split; lia.
Qed.

(** ** FetchAll *)

Lemma markCurrent_length (id : string) (l : list Session) :
  length (markCurrent id l) = length l.
Proof.
  induction l as [|a l IH]; simpl; [reflexivity|].
  destruct (String.eqb (ID a) id); simpl; [reflexivity | now rewrite IH].
Qed.

Lemma markCurrent_no_match (id : string) (l : list Session) :
  (forall s, In s l -> ID s <> id) -> markCurrent id l = l.
Proof.
  induction l as [|a l IH]; intros H; simpl; [reflexivity|].
  destruct (String.eqb (ID a) id) eqn:E.
  - apply String.eqb_eq in E. exfalso. apply (H a); [left; reflexivity | exact E].
  - f_equal. apply IH. intros s Hs. apply H. right. exact Hs.
Qed.

Lemma markCurrent_nth (id : string) (l : list Session) (i : nat) :
  nth_error (markCurrent id l) i
  = option_map (fun s => if isFirstMatch id l i then setCurrent s true else s)
               (nth_error l i).
Proof.
  revert i. induction l as [|a l IH]; intros i.
  - destruct i; reflexivity.
  - simpl markCurrent. unfold isFirstMatch.
    destruct (String.eqb (ID a) id) eqn:E; destruct i as [|i]; simpl.
    + rewrite E. reflexivity.
    + rewrite E. simpl.
      destruct (nth_error l i) as [s|]; simpl; [|reflexivity].
      rewrite andb_false_r. reflexivity.
    + rewrite E. reflexivity.
    + rewrite E. simpl. rewrite IH. unfold isFirstMatch. reflexivity.
Qed.

Lemma NoDup_first_match (id : string) (l : list Session) (i : nat) (s : Session) :
  NoDup (map ID l) -> nth_error l i = Some s -> ID s = id ->
  forallb (fun t => negb (String.eqb (ID t) id)) (firstn i l) = true.
Proof.
  revert i. induction l as [|a l IH]; intros i Hnd Hn Hid.
  - destruct i; discriminate Hn.
  - destruct i as [|i]; simpl; [reflexivity|].
    simpl in Hn. inversion Hnd as [|x xs Hnotin Hnd']; subst x xs.
    rewrite (IH i Hnd' Hn Hid), andb_true_r.
    apply negb_true_iff, String.eqb_neq. intros Ha.
    apply Hnotin. rewrite Ha, <- Hid.
    apply in_map. eapply nth_error_In. exact Hn.
Qed.

Lemma setCurrent_ID (s : Session) (b : bool) : ID (setCurrent s b) = ID s.
Proof. reflexivity. Qed.

Section FetchAllProps.

Context {St : Type}.
Variable m : Manager St.

Lemma FetchAll_run (ctx : Context) (key : string) (w : World St) :
  FetchAll m ctx key w
  = let (res, st') := FetchByUserKey (store m) (w_store w) ctx key in
    let w1 := afterCall w st' (CallFetchByUserKey ctx key) in
    match res with
    | (_, Some e) => ((None, Some e), w1)
    | (None, None) => ((None, None), w1)
    | (Some l, None) =>
        match ctx_session ctx with
        | None => ((Some l, None), w1)
        | Some cs => ((Some (markCurrent (ID cs) l), None), w1)
        end
    end.
Proof.
  unfold FetchAll, FromContext. run.
  destruct (FetchByUserKey (store m) (w_store w) ctx key)
    as [[[l|] [e|]] st']; try reflexivity.
  destruct (ctx_session ctx); reflexivity.
Qed.


(** C8, as the code has it.  On a non-nil store result FetchAll changes
    no entry but one: when a session is bound to the context, the first
    entry with that session's ID gets Current = true.  Every other entry,
    and every entry when no session is bound or no ID matches, keeps the
    Current flag the store returned; no flag is ever cleared.  When the
    store returns all flags false and pairwise distinct IDs, an entry has
    Current = true exactly when its ID is the bound session's.  The only
    store call is the lookup. *)
Theorem FetchAll_marks_first_match
  (ctx : Context) (key : string) (w : World St) (l : list Session) :
  fst (FetchByUserKey (store m) (w_store w) ctx key) = (Some l, None) ->
  exists l' : list Session,
    fst (FetchAll m ctx key w) = (Some l', None)
    /\ logged w (snd (FetchAll m ctx key w)) = [CallFetchByUserKey ctx key]
    /\ length l' = length l
    /\ (forall i s, nth_error l i = Some s ->
        exists s', nth_error l' i = Some s'
          /\ setCurrent s' false = setCurrent s false
          /\ Current s'
             = (Current s
                || match ctx_session ctx with
                   | Some cs => isFirstMatch (ID cs) l i
                   | None => false
                   end)%bool)
    /\ (ctx_session ctx = None
        \/ (exists cs, ctx_session ctx = Some cs
                       /\ forall s, In s l -> ID s <> ID cs) ->
        l' = l)
    /\ (forall cs, ctx_session ctx = Some cs ->
        Forall (fun s => Current s = false) l -> NoDup (map ID l) ->
        forall i s', nth_error l' i = Some s' ->
                     Current s' = String.eqb (ID s') (ID cs)).
Proof.
  intros Hf. rewrite FetchAll_run. unfold logged.
  destruct (FetchByUserKey (store m) (w_store w) ctx key) as [res st'].
  simpl in Hf. subst res.
  destruct (ctx_session ctx) as [cs|] eqn:Hctx; simpl.
  - exists (markCurrent (ID cs) l).
    split; [reflexivity|]. split; [apply skipn_app_exact|].
    split; [apply markCurrent_length|].
    split; [|split].
    + intros i s Hn. rewrite markCurrent_nth, Hn. simpl.
      destruct (isFirstMatch (ID cs) l i).
      * exists (setCurrent s true). rewrite orb_true_r. repeat split.
      * exists s. rewrite orb_false_r. repeat split.
    + intros [H|(cs' & H & Hno)]; [discriminate H|].
      inversion H; subst cs'. apply markCurrent_no_match. exact Hno.
    + intros cs' H Hall Hnd i s' Hn. inversion H; subst cs'.
      rewrite markCurrent_nth in Hn.
      destruct (nth_error l i) as [s|] eqn:Hl; [|discriminate Hn].
      simpl in Hn.
      assert (Hcur : Current s = false).
      { rewrite Forall_forall in Hall. apply Hall.
        eapply nth_error_In. exact Hl. }
      destruct (String.eqb (ID s) (ID cs)) eqn:E.
      * assert (Hfm : isFirstMatch (ID cs) l i = true).
        { unfold isFirstMatch. rewrite Hl, E. simpl.
          apply String.eqb_eq in E.
          exact (NoDup_first_match (ID cs) l i s Hnd Hl E). }
        rewrite Hfm in Hn. inversion Hn; subst s'.
        rewrite setCurrent_ID, E. reflexivity.
      * assert (Hfm : isFirstMatch (ID cs) l i = false).
        { unfold isFirstMatch. rewrite Hl, E. reflexivity. }
        rewrite Hfm in Hn. inversion Hn; subst s'.
        rewrite E. exact Hcur.
  - exists l.
    split; [reflexivity|]. split; [apply skipn_app_exact|].
    split; [reflexivity|].
    split; [|split].
    + intros i s Hn. exists s. rewrite orb_false_r. repeat split. exact Hn.
    + intros _. reflexivity.
    + intros cs H. discriminate H.
Qed.

End FetchAllProps.

Lemma Auth_forwards_resolved_session_witness :
  Request_Cookie reqAlice (name (cookie mgr)) = inl "tok-a1"
  /\ FetchByID (store mgr) (w_store w0) (req_ctx reqAlice) "tok-a1"
     = ((alice1, true, None), w_store w0)
  /\ w_log (snd (Auth mgr nextOK reqAlice w0))
     = [CallFetchByID background "tok-a1";
        CallNext (WithContext reqAlice (newContext background alice1))]
  /\ count isNext (logged w0 (snd (Auth mgr nextOK reqAlice w0))) = 1%nat
  /\ count isReject (logged w0 (snd (Auth mgr nextOK reqAlice w0))) = 0%nat.
Proof.
  assert (H1 : Request_Cookie reqAlice (name (cookie mgr)) = inl "tok-a1")
    by reflexivity.
  assert (H2 : FetchByID (store mgr) (w_store w0) (req_ctx reqAlice) "tok-a1"
               = ((alice1, true, None), w_store w0)) by reflexivity.
  destruct (Auth_forwards_resolved_session mgr nextOK reqAlice w0
              "tok-a1" alice1 (w_store w0) H1 H2) as (Ha & Hb & Hc & _).
  repeat split; assumption.
Defined.

Lemma Auth_rejects_missing_cookie_witness :
  (forall v, ~ In (name (cookie mgr), v) (req_cookies reqAnon))
  /\ w_log (snd (Auth mgr nextOK reqAnon w0)) = [CallReject ErrNoCookie reqAnon]
  /\ count isStoreCall (logged w0 (snd (Auth mgr nextOK reqAnon w0))) = 0%nat
  /\ count isNext (logged w0 (snd (Auth mgr nextOK reqAnon w0))) = 0%nat.
Proof.
  assert (H : forall v, ~ In (name (cookie mgr), v) (req_cookies reqAnon)).
  { intros v [Hv|[]]. discriminate Hv. }
  destruct (Auth_rejects_missing_cookie mgr nextOK reqAnon w0 H)
    as (Ha & Hb & Hc & _).
  repeat split; assumption.
Defined.

Lemma Init_creates_iff_expiry_witness :
  isDuration (expiresIn mgrDay)
  /\ clockAfterEpoch (w_now w0)
  /\ ExpiresAt (fst (newSession mgrDay reqAnon "alice" w0)) = now0 + 24 * Hour
  /\ w_log (snd (Init mgrDay reqAnon "alice" w0))
     = [CallCreate background (fst (newSession mgrDay reqAnon "alice" w0))].
Proof.
  assert (H1 : isDuration (expiresIn mgrDay)).
  { unfold isDuration, minInt64, maxInt64. simpl. lia. }
  assert (H2 : clockAfterEpoch (w_now w0)).
  { unfold clockAfterEpoch, zeroTime, Add, minInt64. simpl. lia. }
  split; [exact H1|]. split; [exact H2|]. split; [reflexivity|].
  exact (proj1 (Init_creates_iff_expiry mgrDay reqAnon "alice" w0 H1 H2)).
Defined.

Lemma Revoke_unbound_noop_bound_deletes_witness :
  Revoke mgr background w0 = (None, w0)
  /\ w_log (snd (Revoke mgr ctxAlice w0)) = [CallDeleteByID ctxAlice "tok-a1"]
  /\ written w0 (snd (Revoke mgr ctxAlice w0)) = [deletionCookie mgr now0].
Proof.
  split.
  - exact (proj1 (Revoke_unbound_noop_bound_deletes mgr background w0) eq_refl).
  - destruct (proj2 (Revoke_unbound_noop_bound_deletes mgr ctxAlice w0)
                alice1 eq_refl) as (Ha & _ & _ & Hd).
    split; [exact Ha | exact Hd].
Defined.

Lemma RevokeOther_deletes_all_but_bound_witness :
  (ctx_session ctxAlice = None -> noEmptyID "alice" (w_store w0))
  /\ (ctx_session background = None -> noEmptyID "alice" (w_store w0))
  /\ logged w0 (snd (RevokeOther mgr ctxAlice "alice" w0))
     = [CallDeleteByUserKey ctxAlice "alice" ["tok-a1"]]
  /\ w_store (snd (RevokeOther mgr ctxAlice "alice" w0)) = [alice1; bob1]
  /\ w_store (snd (RevokeOther mgr background "alice" w0)) = [bob1]
  /\ (forall s, In s (w_store (snd (RevokeOther mgr background "alice" w0))) ->
                UserKey s <> "alice").
Proof.
  assert (H1 : ctx_session ctxAlice = None -> noEmptyID "alice" (w_store w0)).
  { intros H. discriminate H. }
  assert (H2 : ctx_session background = None -> noEmptyID "alice" (w_store w0)).
  { intros _ s [H|[H|[H|[]]]] _; subst s; discriminate. }
  split; [exact H1|]. split; [exact H2|]. split; [|split; [|split]].
  - exact (proj1 (proj1 RevokeOther_deletes_all_but_bound _ mgr ctxAlice
                    "alice" w0)).
  - reflexivity.
  - reflexivity.
  - exact (proj2 (proj2 (proj2 RevokeOther_deletes_all_but_bound defaultCookie
                           0 true true DefaultGenID DefaultReject background
                           "alice" w0 H2)) eq_refl).
Defined.

Lemma RevokeOther_unbound_excludes_empty_id_witness :
  ctx_session background = None
  /\ logged w0 (snd (RevokeOther mgr background "alice" w0))
     = [CallDeleteByUserKey background "alice" [""]]
  /\ w_store (snd (RevokeOther mgr background "alice" w0))
     = snd (DeleteByUserKey (store mgr) (w_store w0) background "alice" [""])
  /\ w_store (snd (RevokeOther mgr background "alice" w0)) = [bob1].
Proof.
  split; [reflexivity|].
  destruct (RevokeOther_unbound_excludes_empty_id mgr background "alice"
              w0 eq_refl) as (Ha & _ & _ & _ & _ & Hs & _).
  split; [exact Ha|]. split; [exact Hs|]. reflexivity.
Defined.

Lemma RevokeAll_deletes_then_clears_cookie_witness :
  w_log (snd (RevokeAll mgr background "alice" w0))
  = [CallDeleteByUserKey background "alice" []]
  /\ w_store (snd (RevokeAll mgr background "alice" w0)) = [bob1]
  /\ written w0 (snd (RevokeAll mgr background "alice" w0))
     = [deletionCookie mgr now0].
Proof.
  split; [|split].
  - exact (proj1 (proj1 RevokeAll_deletes_then_clears_cookie _ mgr background
                    "alice" w0)).
  - reflexivity.
  - exact (proj1 (proj2 (proj2 RevokeAll_deletes_then_clears_cookie
                           defaultCookie 0 true true DefaultGenID DefaultReject
                           background "alice" w0 alice1))).
Defined.


Lemma FetchAll_marks_first_match_witness :
  fst (FetchByUserKey (store mgr) (w_store w0) ctxAlice "alice")
  = (Some [alice1; alice2], None)
  /\ exists l',
       fst (FetchAll mgr ctxAlice "alice" w0) = (Some l', None)
       /\ length l' = 2%nat
       /\ forall i s', nth_error l' i = Some s' ->
                       Current s' = String.eqb (ID s') "tok-a1".
Proof.
  split; [reflexivity|].
  destruct (FetchAll_marks_first_match mgr ctxAlice "alice" w0
              [alice1; alice2] eq_refl)
    as (l' & Hres & _ & Hlen & _ & _ & Hexact).
  exists l'. split; [exact Hres|]. split; [exact Hlen|].
  apply (Hexact alice1 eq_refl).
  - repeat constructor.
  - repeat constructor; simpl; intuition discriminate.
Defined.

Lemma deleteCookie_writes_expired_cookie_witness :
  In (deletionCookie mgr now0) (written w0 (snd (Revoke mgr ctxAlice w0)))
  /\ Name (deletionCookie mgr now0) = "sessionup"
  /\ Value (deletionCookie mgr now0) = ""
  /\ Expires (deletionCookie mgr now0) + 24 * Hour <= now0.
Proof.
  assert (H : In (deletionCookie mgr now0)
                 (written w0 (snd (Revoke mgr ctxAlice w0)))).
  { left. reflexivity. }
  destruct (deleteCookie_writes_expired_cookie mgr ctxAlice "alice" w0
              (deletionCookie mgr now0) (or_introl H)) as (Ha & Hb & _ & Hd).
  repeat split; assumption.
Defined.

(** ** Where the claims as worded fail *)

(** C6 as worded.  The store's bulk delete fails: RevokeAll returns the
    error and the client cookie is not deleted. *)
Lemma RevokeAll_store_error_keeps_cookie :
  fst (RevokeAll mgrDown ctxAlice "alice" wDown) = Some DownStore.down
  /\ w_log (snd (RevokeAll mgrDown ctxAlice "alice" wDown))
     = [CallDeleteByUserKey ctxAlice "alice" []]
  /\ w_cookies (snd (RevokeAll mgrDown ctxAlice "alice" wDown)) = []
  /\ written wDown (snd (RevokeAll mgrDown ctxAlice "alice" wDown)) = [].
Proof.
  repeat split; reflexivity.
Qed.

(** C8 as worded.  The store returns a row whose Current flag is true.
    With no session bound that entry comes back with Current = true; with
    the session of the first row bound, two entries come back with
    Current = true.  The flag of the second row is the store's. *)
Lemma FetchAll_keeps_stored_current :
  fst (FetchByUserKey (store mgrRow) (w_store wRowStale) background "alice")
  = (Some [alice1; stale], None)
  /\ ctx_session background = None
  /\ fst (FetchAll mgrRow background "alice" wRowStale)
     = (Some [alice1; stale], None)
  /\ Current stale = true
  /\ ctx_session ctxAlice = Some alice1
  /\ fst (FetchAll mgrRow ctxAlice "alice" wRowStale)
     = (Some [setCurrent alice1 true; stale], None)
  /\ ID stale <> ID alice1.
Proof.
  repeat split; try reflexivity. intros H. discriminate H.
Qed.

(** * Further properties of the manager *)

(** ** Auth: the rejection paths *)

Section AuthRuns.

Context {St : Type}.
Variable m : Manager St.
Variable next : Handler St.

Lemma Auth_run (r : Request) (w : World St) :
  snd (Auth m next r w)
  = match Request_Cookie r (name (cookie m)) with
    | inr e => served w (CallReject e r) (reject m e) r
    | inl c =>
        let '((s, ok, err), st') :=
          FetchByID (store m) (w_store w) (req_ctx r) c in
        let w1 := afterCall w st' (CallFetchByID (req_ctx r) c) in
        match err with
        | Some e => served w1 (CallReject e r) (reject m e) r
        | None =>
            if ok
            then let r' := WithContext r (newContext (req_ctx r) s) in
                 served w1 (CallNext r') next r'
            else served w1 (CallReject (Err "unauthorized") r)
                        (reject m (Err "unauthorized")) r
        end
    end.
Proof.
  unfold Auth, served.
  destruct (Request_Cookie r (name (cookie m))) as [c|e]; run.
  - destruct (FetchByID (store m) (w_store w) (req_ctx r) c)
      as [[[s ok] [e|]] st']; simpl.
    + destruct (reject m e r (st', w_cookies w)). reflexivity.
    + destruct ok; simpl.
      * destruct (next _ (st', w_cookies w)). reflexivity.
      * destruct (reject m _ r (st', w_cookies w)). reflexivity.
  - destruct (reject m e r (w_store w, w_cookies w)). reflexivity.
Qed.

Lemma served_log (w : World St) (e : Event) (h : Handler St) (r : Request) :
  w_log (served w e h r) = w_log w ++ [e].
Proof.
  unfold served. destruct (h r (w_store w, w_cookies w)). reflexivity.
Qed.

Lemma served_env (w : World St) (e : Event) (h : Handler St) (r : Request) :
  (w_store (served w e h r), w_cookies (served w e h r))
  = h r (w_store w, w_cookies w).
Proof.
  unfold served. destruct (h r (w_store w, w_cookies w)). reflexivity.
Qed.

Lemma logged_two (w w' : World St) (a b : Event) :
  w_log w' = (w_log w ++ [a]) ++ [b] -> logged w w' = [a; b].
Proof.
  intros H. unfold logged. rewrite H, <- app_assoc. apply skipn_app_exact.
Qed.

Lemma logged_one (w w' : World St) (a : Event) :
  w_log w' = w_log w ++ [a] -> logged w w' = [a].
Proof.
  intros H. unfold logged. rewrite H. apply skipn_app_exact.
Qed.

(** X1.  When the store's FetchByID returns an error, Auth hands that very
    error to the rejection handler, together with the original request,
    whatever session and found flag came with it; the next handler is not
    invoked, the lookup is not retried, and the world is what the
    rejection handler leaves. *)
Theorem Auth_store_error_rejected
  (r : Request) (w : World St) (c : string) (s : Session) (ok : bool)
  (e : error) (st' : St) :
  Request_Cookie r (name (cookie m)) = inl c ->
  FetchByID (store m) (w_store w) (req_ctx r) c = ((s, ok, Some e), st') ->
  let w' := snd (Auth m next r w) in
  logged w w' = [CallFetchByID (req_ctx r) c; CallReject e r]
  /\ (w_store w', w_cookies w') = reject m e r (st', w_cookies w).
Proof.
  intros Hc Hf w'. subst w'. rewrite Auth_run, Hc, Hf. cbv beta iota zeta.
  split.
  - apply logged_two. rewrite served_log. reflexivity.
  - rewrite served_env. reflexivity.
Qed.

(** X2.  When FetchByID reports no error and no session for the cookie's
    value, Auth rejects the original request with the error
    "unauthorized"; the session value that came with the answer is not
    used and the next handler is not invoked. *)
Theorem Auth_unknown_session_unauthorized
  (r : Request) (w : World St) (c : string) (s : Session) (st' : St) :
  Request_Cookie r (name (cookie m)) = inl c ->
  FetchByID (store m) (w_store w) (req_ctx r) c = ((s, false, None), st') ->
  let w' := snd (Auth m next r w) in
  logged w w' = [CallFetchByID (req_ctx r) c;
                 CallReject (Err "unauthorized") r]
  /\ (w_store w', w_cookies w')
     = reject m (Err "unauthorized") r (st', w_cookies w).
Proof.
  intros Hc Hf w'. subst w'. rewrite Auth_run, Hc, Hf. cbv beta iota zeta.
  split.
  - apply logged_two. rewrite served_log. reflexivity.
  - rewrite served_env. reflexivity.
Qed.

(** X3.  Whatever the request and the store's answer, Auth invokes exactly
    one handler, once: either the next handler or the rejection handler.
    It makes at most one store call, which is a FetchByID under the
    request's context; a rejection is given the original request; a
    forwarded request differs from the original in its context only, and
    that context has a session bound. *)
Theorem Auth_exactly_one_handler (r : Request) (w : World St) :
  let l := logged w (snd (Auth m next r w)) in
  (count isNext l + count isReject l = 1)%nat
  /\ (count isStoreCall l <= 1)%nat
  /\ (forall e, In e l -> isStoreCall e = true ->
        exists id, e = CallFetchByID (req_ctx r) id)
  /\ (forall e r0, In (CallReject e r0) l -> r0 = r)
  /\ (forall r0, In (CallNext r0) l ->
        req_cookies r0 = req_cookies r /\ req_ip r0 = req_ip r
        /\ req_agent r0 = req_agent r
        /\ snd (FromContext (req_ctx r0)) = true).
Proof.
  intros l. subst l. rewrite Auth_run.
  destruct (Request_Cookie r (name (cookie m))) as [c|e0].
  - destruct (FetchByID (store m) (w_store w) (req_ctx r) c)
      as [[[s ok] [e1|]] st']; [|destruct ok]; cbv zeta;
      match goal with
      | |- context [logged w (served (afterCall w ?st ?a) ?b ?h ?q)] =>
          rewrite (logged_two w (served (afterCall w st a) b h q) a b
                     (served_log (afterCall w st a) b h q))
      end; unfold count; simpl;
      (split; [reflexivity|]); (split; [lia|]);
      (split; [intros e [H|[H|[]]] Hs; subst e;
               [eexists; reflexivity | discriminate Hs]|]);
      (split; [intros e r0 [H|[H|[]]]; inversion H; reflexivity|]);
      intros r0 [H|[H|[]]]; inversion H; repeat split.
  - rewrite (logged_one w _ _ (served_log w (CallReject e0 r) _ r)).
    unfold count. simpl.
    split; [reflexivity|]. split; [lia|].
    split; [intros e [H|[]] Hs; subst e; discriminate Hs|].
    split; [intros e r0 [H|[]]; inversion H; reflexivity|].
    intros r0 [H|[]]. discriminate H.
Qed.

End AuthRuns.

(** ** Init: sessions without expiry, and the way back through Auth *)

Lemma newSession_fields {St : Type} (m : Manager St) (r : Request)
  (key : string) (w : World St) :
  let s := fst (newSession m r key w) in
  ID s = fst (genID m (w_entropy w)) /\ UserKey s = key
  /\ Current s = false /\ CreatedAt s = w_now w.
Proof.
  unfold newSession, call_genID, time_Now, bind, ret. simpl.
  destruct (genID m (w_entropy w)). simpl. repeat split.
Qed.

Lemma Init_written {St : Type} (m : Manager St) (r : Request) (key : string)
  (w : World St) (c : Cookie) :
  In c (written w (snd (Init m r key w))) ->
  c = sessionCookie m (fst (newSession m r key w)).
Proof.
  pose proof (newSession_world m r key w) as Hw1. simpl in Hw1.
  destruct Hw1 as (_ & Hck & _ & _).
  rewrite Init_run. unfold written.
  destruct (newSession m r key w) as [s w1]. simpl in Hck. simpl fst.
  destruct (After (ExpiresAt s) zeroTime).
  - destruct (Create (store m) (w_store w1) (req_ctx r) s) as [[e|] st'];
      simpl; rewrite Hck.
    + rewrite skipn_self. intros [].
    + rewrite skipn_app_exact. intros [H|[]]. symmetry. exact H.
  - simpl. rewrite Hck, skipn_app_exact. intros [H|[]]. symmetry. exact H.
Qed.

(** X4.  A manager with no expiry duration never persists a session: Init
    makes no store call and leaves the store's state alone, returns nil,
    and writes one cookie, without expiry (a browser-session cookie),
    whose value is the ID the generator produced. *)
Theorem Init_without_expiry_skips_store
  {St : Type} (m : Manager St) (r : Request) (key : string) (w : World St) :
  expiresIn m = 0 ->
  let s := fst (newSession m r key w) in
  let w' := snd (Init m r key w) in
  fst (Init m r key w) = None
  /\ logged w w' = []
  /\ w_store w' = w_store w
  /\ written w w' = [sessionCookie m s]
  /\ Expires (sessionCookie m s) = zeroTime
  /\ Value (sessionCookie m s) = fst (genID m (w_entropy w)).
Proof.
  intros He s w'.
  pose proof (newSession_world m r key w) as Hw1. simpl in Hw1.
  destruct Hw1 as (Hst & Hck & _ & Hlg).
  pose proof (newSession_expiry m r key w) as Hex.
  pose proof (newSession_fields m r key w) as (Hid & _).
  rewrite He in Hex. simpl in Hex. fold s in Hex, Hid.
  subst w'. rewrite Init_run. unfold logged, written.
  destruct (newSession m r key w) as [s1 w1].
  simpl in s, Hst, Hck, Hlg. subst s. rewrite Hex.
  unfold After, zeroTime. simpl.
  rewrite Hlg, Hck, skipn_self, skipn_app_exact.
  repeat split; assumption.
Qed.

Section RoundTrip.

Context {St : Type}.
Variable m : Manager St.
Variable next : Handler St.

(** X5.  Init followed by Auth.  When a later request carries the cookie
    Init wrote, and the store resolves that cookie's value to the session
    Init built, Auth looks up exactly the ID Init generated and forwards
    the request with that session bound: same ID, and the user key Init
    was given. *)
Theorem Init_then_Auth_round_trip
  (r r2 : Request) (key : string) (w : World St) (c : Cookie) (st2 : St) :
  let s := fst (newSession m r key w) in
  let w1 := snd (Init m r key w) in
  In c (written w w1) ->
  Request_Cookie r2 (Name c) = inl (Value c) ->
  FetchByID (store m) (w_store w1) (req_ctx r2) (Value c)
  = ((s, true, None), st2) ->
  let r' := WithContext r2 (newContext (req_ctx r2) s) in
  logged w1 (snd (Auth m next r2 w1))
  = [CallFetchByID (req_ctx r2) (ID s); CallNext r']
  /\ Value c = ID s
  /\ ID s = fst (genID m (w_entropy w))
  /\ fst (FromContext (req_ctx r')) = s
  /\ UserKey (fst (FromContext (req_ctx r'))) = key.
Proof.
  intros s w1 Hin Hck Hf r'.
  pose proof (newSession_fields m r key w) as (Hid & Hkey & _).
  fold s in Hid, Hkey.
  apply Init_written in Hin. fold s in Hin. subst c.
  simpl in Hck, Hf.
  split; [|repeat split; assumption].
  rewrite Auth_run, Hck, Hf. cbv beta iota zeta.
  apply logged_two. rewrite served_log. reflexivity.
Qed.

(** X6.  A session issued without expiry cannot be authenticated later.
    With no expiry duration configured, when the store did not know the
    issued ID before Init, a request carrying the cookie Init wrote is
    rejected by Auth as unauthorized: Init has left the store as it
    was. *)
Theorem Init_without_expiry_then_Auth_rejects
  (r r2 : Request) (key : string) (w : World St) (c : Cookie)
  (s0 : Session) (st2 : St) :
  expiresIn m = 0 ->
  let w1 := snd (Init m r key w) in
  In c (written w w1) ->
  Request_Cookie r2 (Name c) = inl (Value c) ->
  FetchByID (store m) (w_store w) (req_ctx r2) (Value c)
  = ((s0, false, None), st2) ->
  logged w1 (snd (Auth m next r2 w1))
  = [CallFetchByID (req_ctx r2) (Value c); CallReject (Err "unauthorized") r2]
  /\ count isNext (logged w1 (snd (Auth m next r2 w1))) = 0%nat.
Proof.
  intros He w1 Hin Hck Hf.
  assert (Hst : w_store w1 = w_store w).
  { subst w1. rewrite Init_run.
    pose proof (newSession_world m r key w) as Hw. simpl in Hw.
    destruct Hw as (Hs & _).
    pose proof (newSession_expiry m r key w) as Hex.
    rewrite He in Hex. simpl in Hex.
    destruct (newSession m r key w) as [s1 w0]. simpl in Hs, Hex.
    rewrite Hex. unfold After, zeroTime. simpl. exact Hs. }
  assert (Hn : Name c = name (cookie m)).
  { apply Init_written in Hin. subst c. reflexivity. }
  rewrite Hn in Hck.
  assert (Hlog : logged w1 (snd (Auth m next r2 w1))
                 = [CallFetchByID (req_ctx r2) (Value c);
                    CallReject (Err "unauthorized") r2]).
  { rewrite Auth_run, Hck, Hst, Hf. cbv beta iota zeta.
    apply logged_two. rewrite served_log. reflexivity. }
  rewrite Hlog. split; reflexivity.
Qed.

End RoundTrip.

(** ** The cookies the manager writes *)

Lemma deletion_written {St : Type} (m : Manager St) (ctx : Context)
  (key : string) (w : World St) (c : Cookie) :
  In c (written w (snd (Revoke m ctx w)))
  \/ In c (written w (snd (RevokeAll m ctx key w))) ->
  c = deletionCookie m (w_now w).
Proof.
  intros [H|H].
  - rewrite Revoke_run in H. unfold written in H.
    destruct (ctx_session ctx) as [s|].
    + destruct (DeleteByID (store m) (w_store w) ctx (ID s)) as [[e|] st'];
        simpl in H.
      * rewrite skipn_self in H. destruct H.
      * rewrite skipn_app_exact in H. destruct H as [H|[]]. now symmetry.
    + simpl in H. rewrite skipn_self in H. destruct H.
  - rewrite RevokeAll_run in H. unfold written in H.
    destruct (DeleteByUserKey (store m) (w_store w) ctx key [])
      as [[e|] st']; simpl in H.
    + rewrite skipn_self in H. destruct H.
    + rewrite skipn_app_exact in H. destruct H as [H|[]]. now symmetry.
Qed.

(** X7.  Every cookie the manager writes, whether Init issues it or Revoke
    or RevokeAll deletes it, carries the manager's cookie name, path,
    domain, Secure, HttpOnly and SameSite settings; so a deletion cookie
    addresses the very cookie Init issued. *)
Theorem written_cookies_follow_configuration
  {St : Type} (m : Manager St) (r : Request) (ctx : Context)
  (key : string) (w : World St) (c : Cookie) :
  In c (written w (snd (Init m r key w)))
  \/ In c (written w (snd (Revoke m ctx w)))
  \/ In c (written w (snd (RevokeAll m ctx key w))) ->
  Name c = name (cookie m) /\ CPath c = path (cookie m)
  /\ CDomain c = domain (cookie m) /\ CSecure c = secure (cookie m)
  /\ CHttpOnly c = httpOnly (cookie m) /\ CSameSite c = sameSite (cookie m).
Proof.
  intros [H|H].
  - apply Init_written in H. subst c. repeat split.
  - apply deletion_written in H. subst c. repeat split.
Qed.

(** ** Options *)

Section OptionProps.

Context {St : Type}.

Lemma sameField_refl (f : Field) (a : Manager St) : sameField f a a.
Proof. destruct f; reflexivity. Qed.

Lemma sameField_trans (f : Field) (a b c : Manager St) :
  sameField f a b -> sameField f b c -> sameField f a c.
Proof. destruct f; simpl; intros H1 H2; congruence. Qed.

Lemma denote_frame (o : Opt St) (f : Field) (a : Manager St) :
  sets o <> f -> sameField f (denote o a) a.
Proof.
  intros H. destruct o, f; simpl; try reflexivity; elim H; reflexivity.
Qed.

Lemma denote_sets (o : Opt St) (a b : Manager St) :
  sameField (sets o) (denote o a) (denote o b).
Proof. destruct o; reflexivity. Qed.

Lemma denote_store (o : Opt St) (a : Manager St) :
  store (denote o a) = store a.
Proof. destruct o; reflexivity. Qed.

Lemma applyOpts_frame (f : Field) (os : list (Opt St)) (a : Manager St) :
  Forall (fun o => sets o <> f) os ->
  sameField f (applyOpts a (map denote os)) a.
Proof.
  revert a. induction os as [|o os IH]; intros a H.
  - apply sameField_refl.
  - inversion H as [|x xs Ho Hos]; subst x xs.
    unfold applyOpts. simpl. fold (applyOpts (denote o a) (map denote os)).
    eapply sameField_trans; [apply IH; exact Hos|].
    apply denote_frame. exact Ho.
Qed.

Lemma applyOpts_store (os : list (Opt St)) (a : Manager St) :
  store (applyOpts a (map denote os)) = store a.
Proof.
  revert a. induction os as [|o os IH]; intros a; [reflexivity|].
  unfold applyOpts. simpl. fold (applyOpts (denote o a) (map denote os)).
  rewrite IH. apply denote_store.
Qed.

Lemma applyOpts_last (os1 os2 : list (Opt St)) (o : Opt St) (a : Manager St) :
  Forall (fun o' => sets o' <> sets o) os2 ->
  sameField (sets o) (applyOpts a (map denote (os1 ++ o :: os2))) (denote o a).
Proof.
  intros H. unfold applyOpts. rewrite map_app, fold_left_app. simpl.
  fold (applyOpts a (map denote os1)).
  fold (applyOpts (denote o (applyOpts a (map denote os1))) (map denote os2)).
  eapply sameField_trans; [apply applyOpts_frame; exact H|].
  apply denote_sets.
Qed.

(** X8.  An option list leaves alone every field none of its options
    assigns.  NewManager then has the default there (cookie name
    "sessionup", path "/", Secure, HttpOnly, SameSite strict, IP and agent
    capture on, no expiry, empty domain); Clone has the original
    manager's value, with no default applied. *)
Theorem options_leave_other_fields
  (f : Field) (os : list (Opt St)) (s : Store St) (a : Manager St) :
  Forall (fun o => sets o <> f) os ->
  sameField f (NewManager s (map denote os)) (NewManager s [])
  /\ sameField f (Clone a (map denote os)) a.
Proof.
  intros H. split.
  - unfold NewManager at 1. apply applyOpts_frame. exact H.
  - unfold Clone. apply applyOpts_frame. exact H.
Qed.

(** X9.  Options apply in order and the last one to assign a field wins:
    when no option after [o] assigns the field [o] does, NewManager and
    Clone end with the value [o] gives that field, whatever came before
    it, the default included. *)
Theorem last_option_wins
  (os1 os2 : list (Opt St)) (o : Opt St) (s : Store St) (a : Manager St) :
  Forall (fun o' => sets o' <> sets o) os2 ->
  sameField (sets o) (NewManager s (map denote (os1 ++ o :: os2))) (denote o a)
  /\ sameField (sets o) (Clone a (map denote (os1 ++ o :: os2))) (denote o a).
Proof.
  intros H. split.
  - unfold NewManager. eapply sameField_trans.
    + apply applyOpts_last. exact H.
    + apply denote_sets.
  - unfold Clone. apply applyOpts_last. exact H.
Qed.

(** X10.  No option changes the store: a manager made by NewManager talks
    to the store it was given, and a clone shares the store of the
    manager it was cloned from, whatever options are applied. *)
Theorem options_keep_store
  (os : list (Opt St)) (s : Store St) (a : Manager St) :
  store (NewManager s (map denote os)) = s
  /\ store (Clone a (map denote os)) = store a.
Proof.
  split.
  - unfold NewManager. rewrite applyOpts_store. reflexivity.
  - unfold Clone. apply applyOpts_store.
Qed.

End OptionProps.

(** ** FetchAll: errors and effects *)

Section FetchAllMore.

Context {St : Type}.
Variable m : Manager St.

(** X11.  When the store's FetchByUserKey returns an error, FetchAll
    returns that error with nil sessions, whatever slice came with the
    error. *)
Theorem FetchAll_store_error_drops_sessions
  (ctx : Context) (key : string) (w : World St) (ss : Sessions) (e : error) :
  fst (FetchByUserKey (store m) (w_store w) ctx key) = (ss, Some e) ->
  fst (FetchAll m ctx key w) = (None, Some e).
Proof.
  intros H. rewrite FetchAll_run.
  destruct (FetchByUserKey (store m) (w_store w) ctx key) as [res st'].
  simpl in H. subst res. destruct ss; reflexivity.
Qed.

(** X12.  Whatever the context and the store's answer, FetchAll calls the
    store once, FetchByUserKey with the caller's context and key, and
    calls nothing else; it writes no cookie; the error it returns is the
    store's, nil included.  (The Current flag is written into the slice
    the store returned; what a store that hands out its own rows keeps of
    that write is not stated here.) *)
Theorem FetchAll_single_lookup_no_cookie
  (ctx : Context) (key : string) (w : World St) :
  let w' := snd (FetchAll m ctx key w) in
  logged w w' = [CallFetchByUserKey ctx key]
  /\ w_cookies w' = w_cookies w
  /\ snd (fst (FetchAll m ctx key w))
     = snd (fst (FetchByUserKey (store m) (w_store w) ctx key)).
Proof.
  intros w'. subst w'. rewrite FetchAll_run. unfold logged.
  destruct (FetchByUserKey (store m) (w_store w) ctx key)
    as [[[l|] [e|]] st']; simpl; try destruct (ctx_session ctx); simpl;
    rewrite skipn_app_exact; repeat split.
Qed.

End FetchAllMore.

(** ** The annotation loop of FetchAll *)

(** X13.  Marking is idempotent: running the loop of FetchAll again over
    its own result, for the same session ID, changes nothing. *)
Theorem markCurrent_idempotent (id : string) (l : list Session) :
  markCurrent id (markCurrent id l) = markCurrent id l.
Proof.
  induction l as [|a l IH]; simpl; [reflexivity|].
  destruct (String.eqb (ID a) id) eqn:E; simpl.
  - rewrite E. reflexivity.
  - rewrite E, IH. reflexivity.
Qed.

(** X14.  The loop keeps the entries' number, order and identity (IDs and
    user keys) and never clears a Current flag: an entry comes back
    either as it was or, when its ID is the one looked for, with Current
    set and nothing else changed.  At most one entry comes back changed,
    so at most one flag is set. *)
Theorem markCurrent_marks_at_most_one (id : string) (l : list Session) :
  length (markCurrent id l) = length l
  /\ map ID (markCurrent id l) = map ID l
  /\ map UserKey (markCurrent id l) = map UserKey l
  /\ (forall i s s',
        nth_error l i = Some s -> nth_error (markCurrent id l) i = Some s' ->
        (Current s = true -> Current s' = true)
        /\ (s' = s \/ (s' = setCurrent s true /\ ID s = id)))
  /\ (forall i j si sj si' sj',
        nth_error l i = Some si -> nth_error (markCurrent id l) i = Some si' ->
        nth_error l j = Some sj -> nth_error (markCurrent id l) j = Some sj' ->
        si' <> si -> sj' <> sj -> i = j)
  /\ (countCurrent l <= countCurrent (markCurrent id l))%nat
  /\ (countCurrent (markCurrent id l) <= S (countCurrent l))%nat.
Proof.
  split; [apply markCurrent_length|].
  split; [|split; [|split; [|split]]].
  - induction l as [|a l IH]; simpl; [reflexivity|].
    destruct (String.eqb (ID a) id); simpl; [reflexivity | now rewrite IH].
  - induction l as [|a l IH]; simpl; [reflexivity|].
    destruct (String.eqb (ID a) id); simpl; [reflexivity | now rewrite IH].
  - intros i s s' Hs Hs'. rewrite markCurrent_nth, Hs in Hs'. simpl in Hs'.
    destruct (isFirstMatch id l i) eqn:Hfm; inversion Hs'; subst s'.
    + split; [reflexivity|]. right. split; [reflexivity|].
      unfold isFirstMatch in Hfm. rewrite Hs in Hfm.
      apply andb_true_iff in Hfm. destruct Hfm as [Hfm _].
      apply String.eqb_eq. exact Hfm.
    + split; [intros H; exact H | left; reflexivity].
  - induction l as [|a l IH]; intros i j si sj si' sj' Hi Hi' Hj Hj' Di Dj.
    + destruct i; discriminate Hi.
    + simpl in Hi', Hj'. destruct (String.eqb (ID a) id).
      * destruct i as [|i]; [|simpl in Hi, Hi'; rewrite Hi in Hi';
                               inversion Hi'; subst si'; elim Di; reflexivity].
        destruct j as [|j]; [reflexivity|].
        simpl in Hj, Hj'. rewrite Hj in Hj'. inversion Hj'; subst sj'.
        elim Dj. reflexivity.
      * destruct i as [|i]; [simpl in Hi, Hi'; rewrite Hi in Hi';
                             inversion Hi'; subst si'; elim Di; reflexivity|].
        destruct j as [|j]; [simpl in Hj, Hj'; rewrite Hj in Hj';
                             inversion Hj'; subst sj'; elim Dj; reflexivity|].
        simpl in Hi, Hi', Hj, Hj'. f_equal.
        exact (IH i j si sj si' sj' Hi Hi' Hj Hj' Di Dj).
  - unfold countCurrent.
    induction l as [|a l (IH3 & IH4)]; simpl.
    + split; lia.
    + destruct (String.eqb (ID a) id); simpl.
      * destruct (Current a); simpl; split; lia.
      * destruct (Current a); simpl; split; lia.
Qed.

(** ** Revoking inside an authenticated request *)

Section AuthThenRevoke.

Context {St : Type}.
Variable m : Manager St.
Variable next : Handler St.

(** X15.  In a request that Auth forwarded, the revocations aim at the
    session the store returned for the cookie: Revoke deletes exactly
    that session's ID, and RevokeOther excludes exactly that ID from its
    bulk delete. *)
Theorem Auth_then_revoke_targets_session
  (r r0 : Request) (w w2 : World St) (c key : string) (s : Session)
  (st' : St) :
  Request_Cookie r (name (cookie m)) = inl c ->
  FetchByID (store m) (w_store w) (req_ctx r) c = ((s, true, None), st') ->
  In (CallNext r0) (logged w (snd (Auth m next r w))) ->
  logged w2 (snd (Revoke m (req_ctx r0) w2))
  = [CallDeleteByID (req_ctx r0) (ID s)]
  /\ logged w2 (snd (RevokeOther m (req_ctx r0) key w2))
     = [CallDeleteByUserKey (req_ctx r0) key [ID s]].
Proof.
  intros Hc Hf Hin.
  rewrite Auth_run, Hc, Hf in Hin. cbv beta iota zeta in Hin.
  match type of Hin with
  | In _ (logged w ?w') =>
      assert (Hl : logged w w'
                   = [CallFetchByID (req_ctx r) c;
                      CallNext (WithContext r (newContext (req_ctx r) s))])
        by (apply logged_two; rewrite served_log; reflexivity);
      rewrite Hl in Hin
  end.
  destruct Hin as [H|[H|[]]]; [discriminate H|].
  inversion H; subst r0. simpl req_ctx. split.
  - rewrite Revoke_run. simpl.
    destruct (DeleteByID (store m) (w_store w2) (newContext (req_ctx r) s) (ID s))
      as [[e|] st2]; apply logged_one; reflexivity.
  - pose proof (RevokeOther_run m (newContext (req_ctx r) s) key w2) as Hr.
    simpl in Hr. rewrite Hr.
    destruct (DeleteByUserKey (store m) (w_store w2)
                (newContext (req_ctx r) s) key [ID s]).
    apply logged_one. reflexivity.
Qed.

End AuthThenRevoke.

(** ** The further properties at work *)

Lemma Auth_store_error_rejected_witness :
  Request_Cookie reqAlice (name (cookie mgrDown)) = inl "tok-a1"
  /\ logged wDown (snd (Auth mgrDown nextOK reqAlice wDown))
     = [CallFetchByID background "tok-a1"; CallReject DownStore.down reqAlice].
Proof.
  split; [reflexivity|].
  exact (proj1 (Auth_store_error_rejected mgrDown nextOK reqAlice wDown
                  "tok-a1" zeroSession false DownStore.down tt
                  eq_refl eq_refl)).
Defined.

Lemma Auth_unknown_session_unauthorized_witness :
  FetchByID (store mgr) (w_store w0) background "tok-zz"
  = ((zeroSession, false, None), w_store w0)
  /\ logged w0 (snd (Auth mgr nextOK reqUnknown w0))
     = [CallFetchByID background "tok-zz";
        CallReject (Err "unauthorized") reqUnknown].
Proof.
  split; [reflexivity|].
  exact (proj1 (Auth_unknown_session_unauthorized mgr nextOK reqUnknown w0
                  "tok-zz" zeroSession (w_store w0) eq_refl eq_refl)).
Defined.

Lemma Init_without_expiry_skips_store_witness :
  expiresIn mgr = 0
  /\ fst (Init mgr reqAnon "alice" w0) = None
  /\ logged w0 (snd (Init mgr reqAnon "alice" w0)) = []
  /\ w_store (snd (Init mgr reqAnon "alice" w0)) = [alice1; alice2; bob1].
Proof.
  destruct (Init_without_expiry_skips_store mgr reqAnon "alice" w0 eq_refl)
    as (Ha & Hb & Hc & _).
  repeat split; assumption.
Defined.

Lemma Init_then_Auth_round_trip_witness :
  let s := fst (newSession mgrDay reqAnon "alice" wEmpty) in
  let w1 := snd (Init mgrDay reqAnon "alice" wEmpty) in
  let c := sessionCookie mgrDay s in
  In c (written wEmpty w1)
  /\ w_store w1 = [s]
  /\ logged w1 (snd (Auth mgrDay nextOK (reqWith c) w1))
     = [CallFetchByID background (ID s);
        CallNext (WithContext (reqWith c) (newContext background s))].
Proof.
  intros s w1 c.
  assert (H : In c (written wEmpty w1)) by (left; reflexivity).
  split; [exact H|]. split; [reflexivity|].
  exact (proj1 (Init_then_Auth_round_trip mgrDay nextOK reqAnon (reqWith c)
                  "alice" wEmpty c (w_store w1) H eq_refl eq_refl)).
Defined.

Lemma Init_without_expiry_then_Auth_rejects_witness :
  let s := fst (newSession mgr reqAnon "alice" w0) in
  let w1 := snd (Init mgr reqAnon "alice" w0) in
  let c := sessionCookie mgr s in
  In c (written w0 w1)
  /\ logged w1 (snd (Auth mgr nextOK (reqWith c) w1))
     = [CallFetchByID background (Value c);
        CallReject (Err "unauthorized") (reqWith c)].
Proof.
  intros s w1 c.
  assert (H : In c (written w0 w1)) by (left; reflexivity).
  split; [exact H|].
  exact (proj1 (Init_without_expiry_then_Auth_rejects mgr nextOK reqAnon
                  (reqWith c) "alice" w0 c zeroSession (w_store w0)
                  eq_refl H eq_refl eq_refl)).
Defined.

Lemma written_cookies_follow_configuration_witness :
  In (deletionCookie mgr now0)
     (written w0 (snd (RevokeAll mgr background "alice" w0)))
  /\ Name (deletionCookie mgr now0) = "sessionup"
  /\ CPath (deletionCookie mgr now0) = "/"
  /\ CSecure (deletionCookie mgr now0) = true.
Proof.
  assert (H : In (deletionCookie mgr now0)
                 (written w0 (snd (RevokeAll mgr background "alice" w0))))
    by (left; reflexivity).
  destruct (written_cookies_follow_configuration mgr reqAnon background
              "alice" w0 (deletionCookie mgr now0) (or_intror (or_intror H)))
    as (Ha & Hb & _ & Hd & _).
  repeat split; assumption.
Defined.

Lemma options_leave_other_fields_witness :
  secure (cookie (NewManager MemStore.store
                    [CookieName "sid"; ExpiresIn Hour])) = true
  /\ expiresIn (Clone mgrDay [CookieName "sid"; Secure false]) = 24 * Hour.
Proof.
  split.
  - refine (proj1 (options_leave_other_fields FSecure
                     [OCookieName "sid"; OExpiresIn Hour]
                     MemStore.store mgr _)).
    repeat constructor; discriminate.
  - refine (proj2 (options_leave_other_fields FExpiresIn
                     [OCookieName "sid"; OSecure false]
                     MemStore.store mgrDay _)).
    repeat constructor; discriminate.
Defined.

Lemma last_option_wins_witness :
  name (cookie (NewManager MemStore.store
                  [CookieName "a"; CookieName "b"; Secure false])) = "b".
Proof.
  refine (proj1 (last_option_wins [OCookieName "a"] [OSecure false]
                   (OCookieName "b") MemStore.store mgr _)).
  repeat constructor; discriminate.
Defined.

Lemma FetchAll_store_error_drops_sessions_witness :
  fst (FetchAll mgrDown ctxAlice "alice" wDown) = (None, Some DownStore.down).
Proof.
  exact (FetchAll_store_error_drops_sessions mgrDown ctxAlice "alice" wDown
           None DownStore.down eq_refl).
Defined.

Lemma Auth_then_revoke_targets_session_witness :
  In (CallNext (WithContext reqAlice (newContext background alice1)))
     (logged w0 (snd (Auth mgr nextOK reqAlice w0)))
  /\ logged w0 (snd (Revoke mgr (newContext background alice1) w0))
     = [CallDeleteByID (newContext background alice1) "tok-a1"].
Proof.
  assert (H : In (CallNext (WithContext reqAlice (newContext background alice1)))
                 (logged w0 (snd (Auth mgr nextOK reqAlice w0))))
    by (right; left; reflexivity).
  split; [exact H|].
  exact (proj1 (Auth_then_revoke_targets_session mgr nextOK reqAlice
                  (WithContext reqAlice (newContext background alice1))
                  w0 w0 "tok-a1" "alice" alice1 (w_store w0)
                  eq_refl eq_refl H)).
Defined.
